(** * The retrieval-and-answer pipeline of the RAG service

    A shallow embedding of [rag/src/services/rag_service.py] (class
    [RagService]) and of the query path of [rag/src/utils/vector_db.py]
    (class [VectorDatabase]), with the properties of the pipeline proved on
    it.

    Conventions.
    - Python values are the inductive [pyval]; a document (a
      [Dict[str, Any]]) is a [gmap string pyval].
    - Python floats are rationals ([Q]); the IEEE special values and
      rounding are outside the model.
    - Text is [string]; a character stands for a code point below 256.
    - Every call that leaves the process (embedding provider, vector store,
      chat completion provider) is recorded in a log of [event]s, and its
      outcome is given by an oracle that may depend on the whole log so far.
      Code that may raise runs in the monad [M], which threads the log and
      carries either a value or a Python exception.
    - The coroutines that [asyncio.gather] runs are modelled as run one
      after the other, in list order. *)

From Stdlib Require Import ZArith QArith Lqa Ascii.
From Stdlib Require Import Sorting.Sorted Sorting.Permutation.
From stdpp Require Import gmap strings list pretty.

Set Warnings "-register-all".
Set Default Proof Using "Type".

Local Open Scope string_scope.
Local Open Scope list_scope.
Local Open Scope Z_scope.

(** ** Python values and exceptions *)

Inductive pyval : Type :=
| PNone
| PBool (b : bool)
| PInt (z : Z)
| PFloat (q : Q)
| PStr (s : string)
| PList (l : list pyval)
| PDict (m : gmap string pyval).

(** The exception classes (all below [Exception]) that the modelled code
    can meet.  [JSONDecodeError] is a subclass of [ValueError] in Python;
    the handlers below list both, so the subclassing is not needed. *)
Inductive exn : Type :=
| TypeError
| ValueError
| KeyError
| IndexError
| AttributeError
| JSONDecodeError
| ValidationError
| OtherError (name : string).

Inductive result (A : Type) : Type :=
| Ok (a : A)
| Raise (e : exn).
Arguments Ok {A} a.
Arguments Raise {A} e.

Abbreviation Document := (gmap string pyval).

(** ** The outside world *)

Abbreviation Message := (string * string)%type (only parsing).

Inductive event : Type :=
| EmbeddingsCreate (input : list string) (model : string)
| StoreQuery (embedding : list Q) (limit : option Z)
| ChatCreate (model : string) (messages : list Message).

Abbreviation History := (list event) (only parsing).

(** ** The monad of logged, fallible computations *)

Definition M (A : Type) : Type := History -> result A * History.

Definition ret {A} (a : A) : M A := fun h => (Ok a, h).

Definition raise {A} (e : exn) : M A := fun h => (Raise e, h).

Definition bind {A B} (m : M A) (k : A -> M B) : M B :=
  fun h =>
    match m h with
    | (Ok a, h') => k a h'
    | (Raise e, h') => (Raise e, h')
    end.

Notation "'do' x <- m ; k" := (bind m (fun x => k))
  (at level 10, x name, m at level 100, k at level 200,
   format "'[v' 'do'  x  <-  m ; '/' k ']'").

(** [try: m except handler]: when [m] raises [e] and [handler e] is
    [Some m'], the handler's body [m'] runs; otherwise [e] propagates. *)
Definition try_except {A} (m : M A) (handler : exn -> option (M A)) : M A :=
  fun h =>
    match m h with
    | (Ok a, h') => (Ok a, h')
    | (Raise e, h') =>
        match handler e with
        | Some m' => m' h'
        | None => (Raise e, h')
        end
    end.

(** An external call: the event is appended to the log, the outcome is the
    oracle's answer for the log before the call. *)
Definition call {A} (ev : event) (outcome : History -> result A) : M A :=
  fun h => (outcome h, h ++ [ev]).

Definition lift {A} (r : result A) : M A := fun h => (r, h).

(** [emits P m]: [m] only appends to the log, and every event it appends
    satisfies [P]. *)
Definition emits {A} (P : event -> Prop) (m : M A) : Prop :=
  forall h r h', m h = (r, h') -> exists evs, h' = h ++ evs /\ Forall P evs.

(** ** Python built-ins used by the code *)

Definition py_isspace (c : ascii) : bool :=
  let n := N_of_ascii c in
  ((9 <=? n) && (n <=? 13) || (28 <=? n) && (n <=? 32)
   || (n =? 133) || (n =? 160))%N.

(** [s.replace(old, new)] for single characters. *)
Fixpoint py_replace_char (old new : ascii) (s : string) : string :=
  match s with
  | EmptyString => EmptyString
  | String c s' =>
      String (if Ascii.eqb c old then new else c) (py_replace_char old new s')
  end.

Fixpoint lstrip (s : string) : string :=
  match s with
  | EmptyString => EmptyString
  | String c s' => if py_isspace c then lstrip s' else s
  end.

Definition py_strip (s : string) : string :=
  String.rev (lstrip (String.rev (lstrip s))).

(** [c in s] *)
Fixpoint py_in (c : ascii) (s : string) : bool :=
  match s with
  | EmptyString => false
  | String a s' => Ascii.eqb a c || py_in c s'
  end.

Fixpoint index_of (c : ascii) (s : string) : option nat :=
  match s with
  | EmptyString => None
  | String a s' => if Ascii.eqb a c then Some O else S <$> index_of c s'
  end.

Fixpoint last_index_of (c : ascii) (s : string) : option nat :=
  match s with
  | EmptyString => None
  | String a s' =>
      match last_index_of c s' with
      | Some i => Some (S i)
      | None => if Ascii.eqb a c then Some O else None
      end
  end.

(** [s.find(c)] and [s.rfind(c)]: [-1] when [c] does not occur. *)
Definition py_find (c : ascii) (s : string) : Z :=
  match index_of c s with Some i => Z.of_nat i | None => -1 end.

Definition py_rfind (c : ascii) (s : string) : Z :=
  match last_index_of c s with Some i => Z.of_nat i | None => -1 end.

(** Slice bounds as Python normalises them: a negative bound counts from
    the end, and every bound is clamped to [0, n]. *)
Definition clamp_index (n i : Z) : Z :=
  if i <? 0 then Z.max 0 (i + n) else Z.min i n.

(** [l[start:stop]] *)
Definition py_slice {A} (l : list A) (start stop : Z) : list A :=
  let n := Z.of_nat (length l) in
  let a := clamp_index n start in
  let b := clamp_index n stop in
  take (Z.to_nat (b - a)) (drop (Z.to_nat a) l).

(** [l[:stop]], where [stop] may be [None]. *)
Definition py_slice_to {A} (l : list A) (stop : option Z) : list A :=
  match stop with
  | None => l
  | Some k => py_slice l 0 k
  end.

Definition py_str_slice (s : string) (start stop : Z) : string :=
  String.string_of_list_ascii
    (py_slice (String.list_ascii_of_string s) start stop).

(** Truthiness of an [Optional[bool]]. *)
Definition truthy (b : option bool) : bool :=
  match b with Some true => true | _ => false end.

(** [sorted(l, key=..., reverse=True)]: Python's sort is stable, also with
    [reverse=True], so it is modelled by a stable insertion sort into
    descending key order: an element is placed in front of the first
    element of the sorted tail whose key is not greater than its own. *)
Section Sorted.
Context {A : Type} (key : A -> Q).

Fixpoint insert_desc (x : A) (l : list A) : list A :=
  match l with
  | [] => [x]
  | y :: l' =>
      if Qle_bool (key y) (key x) then x :: l else y :: insert_desc x l'
  end.

Definition sorted_reverse (l : list A) : list A :=
  foldr insert_desc [] l.

(** Descending key order. *)
Definition desc (a b : A) : Prop := (key b <= key a)%Q.

End Sorted.

(** Library functions that are taken as given. *)
Class PyLib : Type := {
  (** [json.loads]; [None] stands for [JSONDecodeError]. *)
  json_loads : string -> option pyval;
  (** [float] on a string; [None] stands for [ValueError]. *)
  float_of_str : string -> option Q;
  (** [str] on a value that is not a string, as an f-string formats it. *)
  str_of_value : pyval -> string;
}.

Section Builtins.
Context `{PyLib}.

Definition py_json_loads (s : string) : result pyval :=
  match json_loads s with
  | Some v => Ok v
  | None => Raise JSONDecodeError
  end.

(** [float(v)]: numbers and booleans convert, a string is parsed, anything
    else is a [TypeError]. *)
Definition py_float (v : pyval) : result Q :=
  match v with
  | PFloat q => Ok q
  | PInt z => Ok (inject_Z z)
  | PBool b => Ok (if b then 1%Q else 0%Q)
  | PStr s =>
      match float_of_str s with
      | Some q => Ok q
      | None => Raise ValueError
      end
  | PNone | PList _ | PDict _ => Raise TypeError
  end.

(** [parsed.get(key, default)]; only a dict has the method. *)
Definition py_get (parsed : pyval) (key : string) (dflt : pyval)
  : result pyval :=
  match parsed with
  | PDict m => Ok (default dflt (m !! key))
  | _ => Raise AttributeError
  end.

(** A value placed in an f-string. *)
Definition py_format (v : pyval) : string :=
  match v with
  | PStr s => s
  | _ => str_of_value v
  end.

End Builtins.

(** [d.get(key, default)] on a document. *)
Definition doc_get (d : Document) (key : string) (dflt : pyval) : pyval :=
  default dflt (d !! key).

(** [xs[0]] *)
Definition py_first {A} (xs : list A) : result A :=
  match xs with
  | [] => Raise IndexError
  | x :: _ => Ok x
  end.

(** [await asyncio.gather( *tasks )], the tasks run in list order. *)
Fixpoint gather {A} (tasks : list (M A)) : M (list A) :=
  match tasks with
  | [] => ret []
  | t :: ts =>
      do x <- t;
      do xs <- gather ts;
      ret (x :: xs)
  end.

Definition nl : string := String (ascii_of_nat 10) EmptyString.
Definition dq : string := String (ascii_of_nat 34) EmptyString.

(** ** [models/db.py] and [utils/vector_db.py] *)

Record DocumentChunk : Type := {
  id : Z;
  document_id : string;
  chunk_id : string;
  filename : string;
  chunk_text : string;
}.

Module VectorDatabase.

(** The embedding client: [embeddings.create(input, model)] answers with
    the list [response.data] of embedding vectors. *)
Record AsyncOpenAI : Type := {
  embeddings_create : History -> list string -> string -> result (list (list Q));
}.

(** The database session: the rows of the nearest-neighbour query for an
    embedding, in ascending cosine distance, each with its distance. *)
Record t : Type := {
  openai_client : option AsyncOpenAI;
  session_query :
    History -> list Q -> option Z -> result (list (DocumentChunk * Q));
}.

Definition get_embedding (self : t) (text : string) (model : string)
  : M (list Q) :=
  match openai_client self with
  | None => raise ValueError
  | Some client =>
      let text := py_strip (py_replace_char (ascii_of_nat 10) " " text) in
      if String.eqb text "" then ret []
      else
        try_except
          (do data <- call (EmbeddingsCreate [text] model)
                        (fun h => embeddings_create client h [text] model);
           do embedding <- lift (py_first data);
           ret embedding)
          (fun e => Some (raise e))
  end.

Definition format_result (row : DocumentChunk * Q) : Document :=
  let '(chunk, distance) := row in
  let similarity := (1 - distance)%Q in
  <["id" := PInt (id chunk)]>
  (<["document_id" := PStr (document_id chunk)]>
  (<["chunk_id" := PStr (chunk_id chunk)]>
  (<["filename" := PStr (filename chunk)]>
  (<["chunk_text" := PStr (chunk_text chunk)]>
  (<["distance" := PFloat distance]>
  (<["similarity" := PFloat similarity]> ∅)))))).

Definition search (self : t) (query : string) (top_k : option Z)
  : M (list Document) :=
  match openai_client self with
  | None => raise ValueError
  | Some _ =>
      try_except
        (do query_embedding <- get_embedding self query "text-embedding-3-large";
         do results <- call (StoreQuery query_embedding top_k)
                         (fun h => session_query self h query_embedding top_k);
         ret (map format_result results))
        (fun e => Some (raise e))
  end.

End VectorDatabase.

(** ** [models/api.py] *)

Module QueryRequest.
Record t : Type := {
  query : string;
  top_k : option Z;
  use_reranking : option bool;
}.
End QueryRequest.

Module QueryResponse.
Record t : Type := {
  query : string;
  response : string;
  sources : list Document;
}.

(** The constructor call [QueryResponse(query=, response=, sources=)]: the
    model is validated, and [response] must be a [str]. *)
Definition make (query : string) (response : option string)
    (sources : list Document) : result t :=
  match response with
  | Some text => Ok {| query := query; response := text; sources := sources |}
  | None => Raise ValidationError
  end.
End QueryResponse.

(** ** [services/rag_service.py] *)

Module RagService.

(** The chat client: [chat.completions.create(model, messages)] answers
    with the message contents of [response.choices]; a content may be
    [None]. *)
Record OpenAI : Type := {
  chat_completions_create :
    History -> string -> list Message -> result (list (option string));
}.

Record t : Type := {
  vector_database : VectorDatabase.t;
  openai_client : option OpenAI;
}.

Definition judge_system_prompt : string :=
  "You are a relevance scoring expert. Respond with a JSON object containing 'relevance_score' (float between 0.0 and 1.0) and 'reasoning' (string).".

Definition answer_system_prompt : string :=
  "You are a helpful Q&A assistant.".

Definition no_information_text : string :=
  "I couldn't find any relevant information to answer your question.".

Definition generation_error_text : string :=
  "An error occurred while generating the response.".

Definition not_configured_text : string :=
  "Error: OpenAI client not configured.".

Section Service.
Context `{PyLib}.

Definition score_prompt (query : string) (doc : Document) : string :=
  nl +:+ "            Given the user query, evaluate the following document's relevance. " +:+ nl
  +:+ "            Provide a score from 0.0 (not relevant) to 1.0 (highly relevant) and a brief reasoning." +:+ nl
  +:+ nl
  +:+ "            Query: " +:+ dq +:+ query +:+ dq +:+ nl
  +:+ nl
  +:+ "            Document: " +:+ dq
  +:+ py_format (doc_get doc "chunk_text" (PStr "")) +:+ dq +:+ nl
  +:+ "            ".

Definition judge_messages (query : string) (doc : Document) : list Message :=
  [("system", judge_system_prompt); ("user", score_prompt query doc)].

(** The nested coroutine [score_document] of
    [_rerank_documents_with_openai]; [client] and [query] are the variables
    it closes over. *)
Definition score_document (client : OpenAI) (query : string) (doc : Document)
  : M (Q * Document) :=
  try_except
    (do choices <- call (ChatCreate "gpt-5-nano" (judge_messages query doc))
                     (fun h => chat_completions_create client h "gpt-5-nano"
                                 (judge_messages query doc));
     do response_text <- lift (py_first choices);
     try_except
       (match response_text with
        | None => raise TypeError
        | Some response_text =>
            if py_in "{" response_text && py_in "}" response_text then
              let start := py_find "{" response_text in
              let end_ := py_rfind "}" response_text + 1 in
              let json_str := py_str_slice response_text start end_ in
              do parsed <- lift (py_json_loads json_str);
              do value <- lift (py_get parsed "relevance_score" (PFloat 0));
              do relevance_score <- lift (py_float value);
              ret (relevance_score, doc)
            else ret (0%Q, doc)
        end)
       (fun e =>
          match e with
          | JSONDecodeError | ValueError | KeyError => Some (ret (0%Q, doc))
          | _ => None
          end))
    (fun e => Some (ret (0%Q, doc))).

Definition _rerank_documents_with_openai (self : t) (query : string)
    (documents : list Document) : M (list Document) :=
  match openai_client self, documents with
  | None, _ | _, [] => ret documents
  | Some client, _ =>
      let scoring_tasks := map (score_document client query) documents in
      do scored_docs <- gather scoring_tasks;
      let reranked_docs := sorted_reverse fst scored_docs in
      ret (map snd reranked_docs)
  end.

Definition context_entry (doc : Document) : string :=
  let filename := doc_get doc "filename" (PStr "N/A") in
  let chunk_id := doc_get doc "chunk_id" (PStr "N/A") in
  ("Source: " +:+ py_format filename +:+ " - Chunk " +:+ py_format chunk_id
   +:+ nl)
  +:+ ("Content: " +:+ py_format (doc_get doc "chunk_text" (PStr ""))
       +:+ nl +:+ nl).

Definition build_context (context_docs : list Document) : string :=
  foldl (fun context doc => context +:+ context_entry doc) "" context_docs.

Definition answer_prompt (query : string) (context : string) : string :=
  nl +:+ "        You are an expert Q&A assistant. Use the following context to answer the user's question." +:+ nl
  +:+ "        If the context does not contain the answer, state that you could not find the information." +:+ nl
  +:+ nl
  +:+ "        Context:" +:+ nl
  +:+ "        ---" +:+ nl
  +:+ "        " +:+ context +:+ nl
  +:+ "        ---" +:+ nl
  +:+ nl
  +:+ "        Question: " +:+ dq +:+ query +:+ dq +:+ nl
  +:+ "        ".

Definition answer_messages (query : string) (context_docs : list Document)
  : list Message :=
  [("system", answer_system_prompt);
   ("user", answer_prompt query (build_context context_docs))].

(** The result is [response.choices[0].message.content], which the client
    library types as an optional string. *)
Definition _generate_rag_response (self : t) (query : string)
    (context_docs : list Document) : M (option string) :=
  match openai_client self with
  | None => ret (Some not_configured_text)
  | Some client =>
      try_except
        (do choices <- call (ChatCreate "gpt-5-nano"
                               (answer_messages query context_docs))
                         (fun h => chat_completions_create client h "gpt-5-nano"
                                     (answer_messages query context_docs));
         do content <- lift (py_first choices);
         ret content)
        (fun e => Some (ret (Some generation_error_text)))
  end.

(** [request.top_k * 3 if request.use_reranking else request.top_k] *)
Definition retrieval_limit (request : QueryRequest.t) : result (option Z) :=
  if truthy (QueryRequest.use_reranking request) then
    match QueryRequest.top_k request with
    | Some k => Ok (Some (k * 3))
    | None => Raise TypeError
    end
  else Ok (QueryRequest.top_k request).

Definition nonempty {A} (l : list A) : bool :=
  match l with [] => false | _ => true end.

Definition process_query (self : t) (request : QueryRequest.t)
  : M QueryResponse.t :=
  let query := QueryRequest.query request in
  let top_k := QueryRequest.top_k request in
  let use_reranking := QueryRequest.use_reranking request in
  do retrieval_limit <- lift (retrieval_limit request);
  do similar_docs <-
    VectorDatabase.search (vector_database self) query retrieval_limit;
  do final_docs <-
    (if truthy use_reranking && nonempty similar_docs then
       do final_docs <- _rerank_documents_with_openai self query similar_docs;
       ret (py_slice_to final_docs top_k)
     else ret (py_slice_to similar_docs top_k));
  do response_text <-
    (if nonempty final_docs then
       _generate_rag_response self query final_docs
     else ret (Some no_information_text));
  lift (QueryResponse.make query response_text final_docs).

End Service.
End RagService.

(** ** Vocabulary of the specification *)

Section Vocabulary.
Context `{PyLib}.

(** Steps 1 and 2 of [process_query]: retrieval, reranking and truncation,
    up to the value of [final_docs]. *)
Definition select_documents (self : RagService.t) (request : QueryRequest.t)
  : M (list Document) :=
  let query := QueryRequest.query request in
  let top_k := QueryRequest.top_k request in
  let use_reranking := QueryRequest.use_reranking request in
  do retrieval_limit <- lift (RagService.retrieval_limit request);
  do similar_docs <-
    VectorDatabase.search (RagService.vector_database self) query
      retrieval_limit;
  if truthy use_reranking && RagService.nonempty similar_docs then
    do final_docs <-
      RagService._rerank_documents_with_openai self query similar_docs;
    ret (py_slice_to final_docs top_k)
  else ret (py_slice_to similar_docs top_k).

(** Step 3 of [process_query]: the answer for given [final_docs], and the
    response object. *)
Definition answer_step (self : RagService.t) (request : QueryRequest.t)
    (final_docs : list Document) : M QueryResponse.t :=
  let query := QueryRequest.query request in
  do response_text <-
    (if RagService.nonempty final_docs then
       RagService._generate_rag_response self query final_docs
     else ret (Some RagService.no_information_text));
  lift (QueryResponse.make query response_text final_docs).

(** The text that [score_document] hands to [json.loads]: from the first
    opening brace to the last closing brace of the judge's output. *)
Definition json_payload (response_text : string) : string :=
  py_str_slice response_text (py_find "{" response_text)
    (py_rfind "}" response_text + 1).

Definition has_braces (response_text : string) : bool :=
  py_in "{" response_text && py_in "}" response_text.

(** A JSON value that is a number. *)
Definition numeric (v : pyval) : bool :=
  match v with PInt _ | PFloat _ => true | _ => false end.

(** The score that a judge reply states as a JSON number, if it does: the
    first choice has a text, the text has a brace-delimited payload that
    parses to an object, and its [relevance_score] is a number. *)
Definition stated_score (reply : result (list (option string))) : option pyval :=
  match reply with
  | Ok (Some text :: _) =>
      if has_braces text then
        match json_loads (json_payload text) with
        | Some (PDict m) =>
            match m !! "relevance_score" with
            | Some v => if numeric v then Some v else None
            | None => None
            end
        | _ => None
        end
      else None
  | _ => None
  end.

(** The values that [float] rejects. *)
Inductive unusable_value : pyval -> Prop :=
| unusable_none : unusable_value PNone
| unusable_list l : unusable_value (PList l)
| unusable_dict m : unusable_value (PDict m)
| unusable_str s : float_of_str s = None -> unusable_value (PStr s).

(** The judge replies from which no score can be taken: the call raised,
    or the reply has no text, or the text has no payload that parses to an
    object, or the object has no [relevance_score], or [float] rejects its
    value. *)
Inductive degraded : result (list (option string)) -> Prop :=
| degraded_raise e : degraded (Raise e)
| degraded_no_choice : degraded (Ok [])
| degraded_no_content rest : degraded (Ok (None :: rest))
| degraded_no_braces text rest :
    has_braces text = false -> degraded (Ok (Some text :: rest))
| degraded_not_json text rest :
    has_braces text = true -> json_loads (json_payload text) = None ->
    degraded (Ok (Some text :: rest))
| degraded_not_object text rest v :
    has_braces text = true -> json_loads (json_payload text) = Some v ->
    (forall m, v <> PDict m) ->
    degraded (Ok (Some text :: rest))
| degraded_no_key text rest m :
    has_braces text = true ->
    json_loads (json_payload text) = Some (PDict m) ->
    m !! "relevance_score" = None ->
    degraded (Ok (Some text :: rest))
| degraded_value text rest m v :
    has_braces text = true ->
    json_loads (json_payload text) = Some (PDict m) ->
    m !! "relevance_score" = Some v -> unusable_value v ->
    degraded (Ok (Some text :: rest)).

(** The request that [score_document] sends for a document. *)
Definition judge_call (query : string) (doc : Document) : event :=
  ChatCreate "gpt-5-nano" (RagService.judge_messages query doc).

(** The request that [_generate_rag_response] sends. *)
Definition answer_call (query : string) (docs : list Document) : event :=
  ChatCreate "gpt-5-nano" (RagService.answer_messages query docs).

End Vocabulary.

(** A request to the completion provider for an answer, as opposed to a
    judge request: it carries the system prompt of
    [_generate_rag_response]. *)
Definition is_answer_call (ev : event) : bool :=
  match ev with
  | ChatCreate _ (("system", content) :: _) =>
      String.eqb content RagService.answer_system_prompt
  | _ => false
  end.

Definition is_chat_call (ev : event) : bool :=
  match ev with ChatCreate _ _ => true | _ => false end.

Definition is_embedding_call (ev : event) : bool :=
  match ev with EmbeddingsCreate _ _ => true | _ => false end.

(** The limit of a query sent to the vector store. *)
Definition store_limit (ev : event) : option (option Z) :=
  match ev with StoreQuery _ limit => Some limit | _ => None end.

(** The candidates of a scored list whose key equals [s]. *)
Definition with_score {A} (s : Q) (scored : list (Q * A)) : list (Q * A) :=
  List.filter (fun p => Qeq_bool (fst p) s) scored.

(** The end-to-end scenario: the distances of the six candidates (their
    similarities are 0.9, 0.85, 0.8, 0.75, 0.7, 0.65) and the scores the
    judge gives them. *)
Definition refund_query : string := "What is the refund policy?".

Definition refund_request : QueryRequest.t :=
  {| QueryRequest.query := refund_query;
     QueryRequest.top_k := Some 2;
     QueryRequest.use_reranking := Some true |}.

Definition refund_distances : list Q :=
  [0.1; 0.15; 0.2; 0.25; 0.3; 0.35]%Q.

Definition refund_scores : list Q :=
  [0.2; 0.9; 0.95; 0.1; 0.3; 0.4]%Q.

Definition in_unit_interval (s : Q) : Prop := (0 <= s /\ s <= 1)%Q.

(** The texts for which [get_embedding] has nothing left to embed. *)
Definition blank (text : string) : Prop :=
  py_strip (py_replace_char (ascii_of_nat 10) " " text) = "".

Fixpoint all_space (s : string) : bool :=
  match s with
  | EmptyString => true
  | String c s' => py_isspace c && all_space s'
  end.

(** A candidate as [VectorDatabase.search] builds it. *)
Definition retrieved (doc : Document) : Prop :=
  exists row, doc = VectorDatabase.format_result row.

(** A candidate that carries a relevance score between 0 and 1. *)
Definition carries_score (doc : Document) : Prop :=
  exists s, doc !! "relevance_score" = Some (PFloat s) /\ in_unit_interval s.

(** ** A concrete world

    A library instance, a store with six chunks and a scripted provider,
    for the end-to-end scenario and for the concrete inputs below. *)

Module Demo.

(** The judge's payload for a score written as [literal]:
    an object with the one key [relevance_score]. *)
Definition payload (literal : string) : string :=
  "{" +:+ dq +:+ "relevance_score" +:+ dq +:+ ": " +:+ literal +:+ "}".

(** The JSON literals the instance reads, with the values [json.loads]
    gives them. *)
Definition literals : list (string * pyval) :=
  [("0.2", PFloat 0.2); ("0.9", PFloat 0.9); ("0.95", PFloat 0.95);
   ("0.1", PFloat 0.1); ("0.3", PFloat 0.3); ("0.4", PFloat 0.4);
   ("1.5", PFloat 1.5); ("-0.5", PFloat (-0.5)); ("0", PInt 0);
   ("true", PBool true); ("null", PNone);
   (dq +:+ "0.9" +:+ dq, PStr "0.9"); (dq +:+ "high" +:+ dq, PStr "high")].

Fixpoint lookup_payload (s : string) (table : list (string * pyval))
  : option pyval :=
  match table with
  | [] => None
  | (literal, v) :: table' =>
      if String.eqb s (payload literal)
      then Some (PDict {["relevance_score" := v]})
      else lookup_payload s table'
  end.

#[export] Instance lib : PyLib := {|
  json_loads s := lookup_payload s literals;
  float_of_str s := if String.eqb s "0.9" then Some 0.9%Q else None;
  str_of_value _ := "";
|}.

Definition chunk (n : Z) (text : string) : DocumentChunk :=
  {| id := n; document_id := "policy"; chunk_id := text;
     filename := "policy.md"; chunk_text := text |}.

Definition chunks : list DocumentChunk :=
  [chunk 0 "c0"; chunk 1 "c1"; chunk 2 "c2";
   chunk 3 "c3"; chunk 4 "c4"; chunk 5 "c5"].

Definition rows : list (DocumentChunk * Q) := zip chunks refund_distances.

Definition docs : list Document := map VectorDatabase.format_result rows.

Definition doc (i : nat) : Document := default ∅ (docs !! i).

Definition embedder : VectorDatabase.AsyncOpenAI :=
  {| VectorDatabase.embeddings_create _ _ _ := Ok [[1%Q; 0%Q; 0%Q]] |}.

(** A store that answers every query with its first [limit] rows. *)
Definition store (client : option VectorDatabase.AsyncOpenAI)
    (table : list (DocumentChunk * Q)) : VectorDatabase.t :=
  {| VectorDatabase.openai_client := client;
     VectorDatabase.session_query _ _ limit := Ok (py_slice_to table limit) |}.

(** A chat client that answers its n-th request with the n-th entry of
    [script], and raises when the script is exhausted. *)
Definition scripted (script : list (result (list (option string))))
  : RagService.OpenAI :=
  {| RagService.chat_completions_create h _ _ :=
       default (Raise (OtherError "APIConnectionError"))
         (script !! length (List.filter is_chat_call h)) |}.

Definition says (text : string) : result (list (option string)) :=
  Ok [Some text].

Definition service (table : list (DocumentChunk * Q))
    (script : list (result (list (option string)))) : RagService.t :=
  {| RagService.vector_database := store (Some embedder) table;
     RagService.openai_client := Some (scripted script) |}.

Definition refund_script : list (result (list (option string))) :=
  map (fun literal => says (payload literal))
    ["0.2"; "0.9"; "0.95"; "0.1"; "0.3"; "0.4"]
  ++ [says "Refunds are accepted within 30 days."].

Definition judge_script : list (result (list (option string))) :=
  map (fun literal => says (payload literal))
    ["0.2"; "0.9"; "0.95"; "0.1"; "0.3"; "0.4"].

(** The scenario's service; and one whose provider fails on the answer
    request, its script ending with the judge replies. *)
Definition refund_service : RagService.t := service rows refund_script.

Definition failing_service : RagService.t := service rows judge_script.

(** A service whose store is empty. *)
Definition empty_service : RagService.t := service [] [].

(** The logs of the scenario after retrieval and after scoring. *)
Definition retrieval_log : list event :=
  snd (VectorDatabase.search (RagService.vector_database refund_service)
         refund_query (Some 6) []).

Definition scoring_log : list event :=
  retrieval_log ++ map (judge_call refund_query) docs.

(** A judge whose reply for the candidate at index 3 states the score
    1.5, and one that scores the first of two candidates [true]. *)
Definition eager_script : list (result (list (option string))) :=
  map (fun literal => says (payload literal))
    ["0.2"; "0.9"; "0.95"; "1.5"; "0.3"; "0.4"].

Definition boolean_script : list (result (list (option string))) :=
  map (fun literal => says (payload literal)) ["true"; "0.9"].

End Demo.

(** ** Further vocabulary *)

Definition is_store_call (ev : event) : bool :=
  match ev with StoreQuery _ _ => true | _ => false end.

(** A judge request: it carries the system prompt of [score_document]. *)
Definition is_judge_call (ev : event) : bool :=
  match ev with
  | ChatCreate _ (("system", content) :: _) =>
      String.eqb content RagService.judge_system_prompt
  | _ => false
  end.

(** A text without leading or trailing whitespace. *)
Definition trimmed (t : string) : Prop :=
  lstrip t = t /\ lstrip (String.rev t) = String.rev t.

(** A text fit for the embedding provider: not empty, on one line, and
    trimmed. *)
Definition clean_text (t : string) : Prop :=
  t <> "" /\ py_in (ascii_of_nat 10) t = false /\ trimmed t.

(** An embedding request for one clean text. *)
Definition clean_embedding_request (ev : event) : Prop :=
  match ev with
  | EmbeddingsCreate [t] _ => clean_text t
  | _ => False
  end.

(** The text that [get_embedding] sends for [text]. *)
Definition normalized (text : string) : string :=
  py_strip (py_replace_char (ascii_of_nat 10) " " text).

(** The keys of a candidate built by [search]. *)
Definition candidate_keys : gset string :=
  {[ "id"; "document_id"; "chunk_id"; "filename"; "chunk_text";
     "distance"; "similarity" ]}.

(** The calls of one run of [process_query], in their order: at most one
    embedding request, then at most one store query, then judge requests,
    then at most one answer request. *)
Definition call_pattern (evs : list event) : Prop :=
  exists embeds queries judges answers,
    evs = embeds ++ queries ++ judges ++ answers
    /\ (length embeds <= 1)%nat
    /\ Forall (fun ev => is_embedding_call ev = true) embeds
    /\ (length queries <= 1)%nat
    /\ Forall (fun ev => is_store_call ev = true) queries
    /\ Forall (fun ev => is_judge_call ev = true) judges
    /\ (length answers <= 1)%nat
    /\ Forall (fun ev => is_answer_call ev = true) answers.

(** ** [api/endpoints/ask.py] *)

Module Ask.

(** What a request handler does: it returns the response body, or it
    raises an [HTTPException] with a status code and a detail. *)
Inductive reply (A : Type) : Type :=
| Returns (body : A)
| HTTPException (status_code : Z) (detail : string).
Arguments Returns {A} body.
Arguments HTTPException {A} status_code detail.

Section Endpoint.
Context `{PyLib}.

Definition ask (request : QueryRequest.t) (rag_service : RagService.t)
  : History -> reply QueryResponse.t * History :=
  fun h =>
    if String.eqb (py_strip (QueryRequest.query request)) "" then
      (HTTPException 400 "Query cannot be empty", h)
    else
      match RagService.process_query rag_service request h with
      | (Ok response, h') => (Returns response, h')
      | (Raise e, h') => (HTTPException 500 "Internal server error", h')
      end.

End Endpoint.
End Ask.

(** ** [generate_conversation_title], in
    [services/conversation_service.py] and in [chatbot/src/rag_client.py]

    The two methods differ in the model they name only. *)

Module Titles.

(** The chat client as the title methods use it:
    [chat.completions.create(model, messages, max_tokens)]. *)
Record OpenAI : Type := {
  chat_completions_create :
    string -> list Message -> Z -> result (list (option string));
}.

Definition title_prompt (first_query : string) : string :=
  "Extract a short, concise title (max 5 words) that summarizes this question:"
  +:+ nl +:+ "            " +:+ dq +:+ first_query +:+ dq +:+ nl
  +:+ "            " +:+ nl
  +:+ "            Return only the title, nothing else.".

Definition title_messages (first_query : string) : list Message :=
  [("system", "You are a helpful assistant that creates concise titles.");
   ("user", title_prompt first_query)].

(** [len(s)] *)
Definition py_len (s : string) : Z := Z.of_nat (String.length s).

(** [first_query[:50] + "..." if len(first_query) > 50 else first_query] *)
Definition shortened (first_query : string) : string :=
  if 50 <? py_len first_query
  then py_str_slice first_query 0 50 +:+ "..."
  else first_query.

(** The body of the method; [model] is the model it names,
    [OPENAI_AVAILABLE] the module's flag and [openai_client] the
    attribute of [self]. *)
Definition generate_title (model : string) (OPENAI_AVAILABLE : bool)
    (openai_client : option OpenAI) (first_query : string) : string :=
  match openai_client with
  | Some client =>
      if OPENAI_AVAILABLE then
        match chat_completions_create client model
                (title_messages first_query) 20 with
        | Ok (Some content :: _) =>
            let title := py_strip content in
            if 100 <? py_len title
            then py_str_slice title 0 100 +:+ "..."
            else title
        | Ok (None :: _) | Ok [] | Raise _ => shortened first_query
        end
      else shortened first_query
  | None => shortened first_query
  end.

End Titles.

Module ConversationService.
Definition generate_conversation_title :=
  Titles.generate_title "gpt-5-nano".
End ConversationService.

Module RAGClient.
Definition generate_conversation_title :=
  Titles.generate_title "gpt-3.5-turbo".
End RAGClient.

(** ** [VectorDatabase.add_document_sections], in [utils/vector_db.py]

    The ingestion path works on a database session.  Its operations are
    external calls like those of the providers: each one is logged, and
    its outcome is given by an oracle.  The log of this path holds the
    provider requests and the session operations in the order in which
    they happen. *)

(** The [raise] of the monad [M], under a name that the module below
    does not redefine. *)
Definition raise_in_M {A} (e : exn) : M A := raise e.

Module Ingestion.

(** The [DocumentChunk] object that the loop builds from a section. *)
Record NewChunk : Type := {
  document_id : pyval;
  chunk_id : pyval;
  filename : pyval;
  chunk_text : pyval;
  dense_vector : list Q;
}.

Inductive session_event : Type :=
| Merge (chunk : NewChunk)
| Commit
| Rollback
| Close
| QueryIds (document_ids : list pyval).

Inductive ingest_event : Type :=
| Provider (ev : event)
| Session (ev : session_event).

Abbreviation Log := (list ingest_event) (only parsing).

(** The session that [self.SessionLocal()] returns. [query_ids] stands
    for the query of the ids of the chunks whose [document_id] is among
    the given ones. *)
Record SessionLocal : Type := {
  merge : Log -> NewChunk -> result unit;
  commit : Log -> result unit;
  rollback : Log -> result unit;
  close : Log -> result unit;
  query_ids : Log -> list pyval -> result (list Z);
}.

Definition MI (A : Type) : Type := Log -> result A * Log.

Definition ret {A} (a : A) : MI A := fun log => (Ok a, log).

Definition raise {A} (e : exn) : MI A := fun log => (Raise e, log).

Definition bind {A B} (m : MI A) (k : A -> MI B) : MI B :=
  fun log =>
    match m log with
    | (Ok a, log') => k a log'
    | (Raise e, log') => (Raise e, log')
    end.

Definition lift {A} (r : result A) : MI A := fun log => (r, log).

Definition call {A} (ev : session_event) (outcome : Log -> result A) : MI A :=
  fun log => (outcome log, log ++ [Session ev]).

(** [try: m except Exception as e: handler e] *)
Definition try_except {A} (m : MI A) (handler : exn -> MI A) : MI A :=
  fun log =>
    match m log with
    | (Ok a, log') => (Ok a, log')
    | (Raise e, log') => handler e log'
    end.

(** [try: m finally: cleanup]: the cleanup always runs; when it raises,
    its exception is the one that propagates. *)
Definition try_finally {A} (m : MI A) (cleanup : MI unit) : MI A :=
  fun log =>
    match m log with
    | (r, log') =>
        match cleanup log' with
        | (Ok _, log'') => (r, log'')
        | (Raise e, log'') => (Raise e, log'')
        end
    end.

Definition provider_log (log : Log) : History :=
  omap (fun ev => match ev with Provider e => Some e | Session _ => None end)
    log.

(** A computation of the query path run here: it sees the provider
    requests made so far, and the ones it makes are added to the log. *)
Definition provider {A} (m : M A) : MI A :=
  fun log =>
    let h := provider_log log in
    match m h with
    | (r, h') => (r, log ++ map Provider (drop (length h) h'))
    end.

(** Truth value of a Python value. *)
Definition py_bool (v : pyval) : bool :=
  match v with
  | PNone => false
  | PBool b => b
  | PInt z => negb (z =? 0)
  | PFloat q => negb (Qeq_bool q 0)
  | PStr s => negb (String.eqb s "")
  | PList l => negb (Nat.eqb (length l) 0)
  | PDict m => negb (Nat.eqb (size m) 0)
  end.

(** [section.get(key)] *)
Definition get (section : Document) (key : string) : pyval :=
  doc_get section key PNone.

(** [all([text_to_embed, document_id, chunk_id, filename])] *)
Definition complete (section : Document) : bool :=
  forallb py_bool
    [get section "chunk_text"; get section "document_id";
     get section "chunk_id"; get section "filename"].

(** [await self.get_embedding(text_to_embed)] for a value of any type:
    after the check of the client, a value that is not a string has no
    [replace] method. *)
Definition get_embedding (self : VectorDatabase.t) (text : pyval)
  : M (list Q) :=
  match text with
  | PStr s => VectorDatabase.get_embedding self s "text-embedding-3-large"
  | _ =>
      match VectorDatabase.openai_client self with
      | None => raise_in_M ValueError
      | Some _ => raise_in_M AttributeError
      end
  end.

(** [[s['document_id'] for s in sections]] *)
Fixpoint document_ids (sections : list Document) : result (list pyval) :=
  match sections with
  | [] => Ok []
  | s :: rest =>
      match s !! "document_id" with
      | None => Raise KeyError
      | Some v =>
          match document_ids rest with
          | Ok vs => Ok (v :: vs)
          | Raise e => Raise e
          end
      end
  end.

Notation "'run' x <- m ; k" := (bind m (fun x => k))
  (at level 10, x name, m at level 100, k at level 200,
   format "'[v' 'run'  x  <-  m ; '/' k ']'").

Definition new_chunk (section : Document) (dense_vector : list Q) : NewChunk :=
  {| document_id := get section "document_id";
     chunk_id := get section "chunk_id";
     filename := get section "filename";
     chunk_text := get section "chunk_text";
     dense_vector := dense_vector |}.

(** The loop over the sections. *)
Fixpoint merge_sections (self : VectorDatabase.t) (session : SessionLocal)
    (sections : list Document) : MI unit :=
  match sections with
  | [] => ret tt
  | section :: rest =>
      let text_to_embed := get section "chunk_text" in
      if negb (complete section) then merge_sections self session rest
      else
        run dense_vector <- provider (get_embedding self text_to_embed);
        let chunk := new_chunk section dense_vector in
        run _ <- call (Merge chunk) (fun log => merge session log chunk);
        merge_sections self session rest
  end.

Definition add_document_sections (self : VectorDatabase.t)
    (session : SessionLocal) (sections : list Document) : MI (list Z) :=
  match sections with
  | [] => ret []
  | _ =>
      try_finally
        (try_except
           (run _ <- merge_sections self session sections;
            run _ <- call Commit (commit session);
            run ids <- lift (document_ids sections);
            run inserted_ids <-
              call (QueryIds ids) (fun log => query_ids session log ids);
            ret inserted_ids)
           (fun e =>
              run _ <- call Rollback (rollback session);
              raise e))
        (call Close (close session))
  end.

(** The session operations that end a call. *)
Definition ends_session (ev : ingest_event) : bool :=
  match ev with
  | Session Rollback | Session Close => true
  | _ => false
  end.

(** The chunk of a merge operation. *)
Definition merged (ev : ingest_event) : option NewChunk :=
  match ev with Session (Merge chunk) => Some chunk | _ => None end.

(** A chunk merged for a section: it has the section's fields, and a
    blank text has the empty vector. *)
Definition chunk_of (section : Document) (chunk : NewChunk) : Prop :=
  document_id chunk = get section "document_id"
  /\ chunk_id chunk = get section "chunk_id"
  /\ filename chunk = get section "filename"
  /\ chunk_text chunk = get section "chunk_text"
  /\ forall s, chunk_text chunk = PStr s -> blank s -> dense_vector chunk = [].

End Ingestion.

(** The events of the loop of [add_document_sections]: embedding
    requests and merge operations. *)
Definition loop_event (ev : Ingestion.ingest_event) : Prop :=
  match ev with
  | Ingestion.Provider e => is_embedding_call e = true
  | Ingestion.Session (Ingestion.Merge _) => True
  | Ingestion.Session _ => False
  end.

(** ** Further concrete inputs *)

Module Fixtures.

Definition plain_request : QueryRequest.t :=
  {| QueryRequest.query := refund_query;
     QueryRequest.top_k := Some 2;
     QueryRequest.use_reranking := Some false |}.

Definition unlimited_request : QueryRequest.t :=
  {| QueryRequest.query := refund_query;
     QueryRequest.top_k := None;
     QueryRequest.use_reranking := Some false |}.

Definition unlimited_rerank_request : QueryRequest.t :=
  {| QueryRequest.query := refund_query;
     QueryRequest.top_k := None;
     QueryRequest.use_reranking := Some true |}.

Definition blank_request : QueryRequest.t :=
  {| QueryRequest.query := "   ";
     QueryRequest.top_k := Some 2;
     QueryRequest.use_reranking := Some true |}.

Definition database : VectorDatabase.t :=
  Demo.store (Some Demo.embedder) Demo.rows.

(** A database whose store fails. *)
Definition broken_database : VectorDatabase.t :=
  {| VectorDatabase.openai_client := Some Demo.embedder;
     VectorDatabase.session_query _ _ _ :=
       Raise (OtherError "OperationalError") |}.

Definition broken_service : RagService.t :=
  {| RagService.vector_database := broken_database;
     RagService.openai_client := Some (Demo.scripted []) |}.

(** The log after the failed store query. *)
Definition broken_log : list event :=
  [EmbeddingsCreate [refund_query] "text-embedding-3-large";
   StoreQuery [1%Q; 0%Q; 0%Q] (Some 6)].

(** A provider whose completion for the answer has no text. *)
Definition silent_script : list (result (list (option string))) :=
  Demo.judge_script ++ [Ok [None]].

Definition silent_service : RagService.t :=
  Demo.service Demo.rows silent_script.

(** A judge reply that wraps its object in prose. *)
Definition prose_object : string :=
  dq +:+ "relevance_score" +:+ dq +:+ ": 0.9".

Definition prose_reply : string :=
  "Score: " +:+ "{" +:+ prose_object +:+ "}" +:+ " (relevant)".

Definition prose_client : RagService.OpenAI :=
  Demo.scripted [Demo.says prose_reply].

End Fixtures.

Module TitleFixtures.

(** A title client that gives the same reply to every request. *)
Definition replying (reply : result (list (option string))) : Titles.OpenAI :=
  {| Titles.chat_completions_create _ _ _ := reply |}.

Definition long_query : string :=
  "How long do I have to return an item that I bought online last month?".

End TitleFixtures.

Module IngestionFixtures.

(** A session all of whose operations succeed; the id query finds the
    chunks 1 and 2. *)
Definition session : Ingestion.SessionLocal :=
  {| Ingestion.merge _ _ := Ok tt;
     Ingestion.commit _ := Ok tt;
     Ingestion.rollback _ := Ok tt;
     Ingestion.close _ := Ok tt;
     Ingestion.query_ids _ _ := Ok [1; 2] |}.

Definition section (text : string) : Document :=
  <["document_id" := PStr "policy"]>
  (<["chunk_id" := PStr "policy_chunk_0"]>
  (<["filename" := PStr "policy.md"]>
  (<["chunk_text" := PStr text]> ∅))).

(** A section without the [document_id] key. *)
Definition keyless_section : Document :=
  <["chunk_id" := PStr "policy_chunk_1"]>
  (<["filename" := PStr "policy.md"]>
  (<["chunk_text" := PStr "Refunds take 30 days."]> ∅)).

(** A database whose embedding provider fails. *)
Definition failing_database : VectorDatabase.t :=
  {| VectorDatabase.openai_client :=
       Some {| VectorDatabase.embeddings_create _ _ _ :=
                 Raise (OtherError "RateLimitError") |};
     VectorDatabase.session_query _ _ _ := Ok [] |}.

Definition embedding_of (text : string) : Ingestion.ingest_event :=
  Ingestion.Provider (EmbeddingsCreate [text] "text-embedding-3-large").

Definition merge_of (text : string) (vector : list Q)
  : Ingestion.ingest_event :=
  Ingestion.Session
    (Ingestion.Merge (Ingestion.new_chunk (section text) vector)).

End IngestionFixtures.

(** ** [utils/text_chunker.py] *)

Module TextChunker.

(** A markdown file as the loop sees it: [md_file.stem], the string of
    its path relative to the directory, and the outcome of opening and
    reading it. *)
Record MdFile : Type := {
  stem : string;
  relative_path : string;
  read : result string;
}.

(** What the function takes from outside: the configured sizes, the
    constructor of the text splitter, whose result is the [split_text]
    of the splitter, whether the directory exists, and the markdown
    files under it. *)
Record Environment : Type := {
  settings_chunk_size : Z;
  settings_chunk_overlap : Z;
  text_splitter : Z -> Z -> result (string -> result (list string));
  exists_ : bool;
  md_files : list MdFile;
}.

(** [value or default] for an optional integer: [None] and [0] are
    false. *)
Definition or_setting (value : option Z) (setting : Z) : Z :=
  match value with
  | Some v => if v =? 0 then setting else v
  | None => setting
  end.

Definition chunk (document_id filename : string) (idx : nat)
    (chunk_text : string) : Document :=
  let chunk_id := document_id +:+ "_chunk_" +:+ pretty idx in
  <["document_id" := PStr document_id]>
  (<["chunk_id" := PStr chunk_id]>
  (<["filename" := PStr filename]>
  (<["chunk_text" := PStr chunk_text]> ∅))).

(** One round of the loop over the files: the chunks that the file adds.
    An exception in the round is logged and the loop goes on. *)
Definition file_chunks (split_text : string -> result (list string))
    (md_file : MdFile) : list Document :=
  match read md_file with
  | Raise _ => []
  | Ok content =>
      if String.eqb (py_strip content) "" then []
      else
        let document_id := stem md_file in
        let filename := relative_path md_file in
        match split_text content with
        | Raise _ => []
        | Ok split_texts =>
            imap (fun idx chunk_text =>
                    chunk document_id filename idx chunk_text)
              split_texts
        end
  end.

Definition chunk_markdown_files (env : Environment)
    (chunk_size chunk_overlap : option Z) : result (list Document) :=
  let chunk_size := or_setting chunk_size (settings_chunk_size env) in
  let chunk_overlap := or_setting chunk_overlap (settings_chunk_overlap env) in
  match text_splitter env chunk_size chunk_overlap with
  | Raise e => Raise e
  | Ok split_text =>
      if negb (exists_ env) then Ok []
      else Ok (concat (map (file_chunks split_text) (md_files env)))
  end.

(** A file that adds nothing: it cannot be read, or it is blank, or it
    cannot be split. *)
Definition skipped (split_text : string -> result (list string))
    (md_file : MdFile) : Prop :=
  match read md_file with
  | Raise _ => True
  | Ok content =>
      py_strip content = ""
      \/ exists e, split_text content = Raise e
  end.

End TextChunker.

Module ChunkerFixtures.

(** A splitter that refuses an overlap larger than the size and cuts
    every text into two chunks. *)
Definition splitter (size overlap : Z)
  : result (string -> result (list string)) :=
  if size <? overlap then Raise ValueError
  else Ok (fun content => Ok [content; content]).

Definition halves (content : string) : result (list string) :=
  Ok [content; content].

Definition policy : TextChunker.MdFile :=
  {| TextChunker.stem := "policy";
     TextChunker.relative_path := "policy.md";
     TextChunker.read := Ok "Refunds take 30 days." |}.

Definition old_policy : TextChunker.MdFile :=
  {| TextChunker.stem := "policy";
     TextChunker.relative_path := "old/policy.md";
     TextChunker.read := Ok "Refunds take 14 days." |}.

Definition unreadable : TextChunker.MdFile :=
  {| TextChunker.stem := "notes";
     TextChunker.relative_path := "notes.md";
     TextChunker.read := Raise (OtherError "UnicodeDecodeError") |}.

Definition env : TextChunker.Environment :=
  {| TextChunker.settings_chunk_size := 2000;
     TextChunker.settings_chunk_overlap := 200;
     TextChunker.text_splitter := splitter;
     TextChunker.exists_ := true;
     TextChunker.md_files := [policy; unreadable; old_policy] |}.

End ChunkerFixtures.

(** * Properties *)

(** ** The stable descending sort *)

Section SortedFacts.
Context {A : Type} (key : A -> Q).

Lemma insert_desc_perm x l : Permutation (insert_desc key x l) (x :: l).
Proof.
  induction l as [|y l IH]; simpl; [reflexivity|].
  destruct (Qle_bool (key y) (key x)); [reflexivity|].
  rewrite IH. apply perm_swap.
Qed.

Lemma sorted_reverse_perm l : Permutation (sorted_reverse key l) l.
Proof.
  induction l as [|x l IH]; simpl; [reflexivity|].
  rewrite insert_desc_perm. by constructor.
Qed.

Lemma desc_trans a b c : desc key a b -> desc key b c -> desc key a c.
Proof. unfold desc. intros. eapply Qle_trans; eauto. Qed.

Lemma insert_desc_sorted x l :
  StronglySorted (desc key) l -> StronglySorted (desc key) (insert_desc key x l).
Proof.
  induction 1 as [|y l Hl IH Hy]; simpl.
  - repeat constructor.
  - destruct (Qle_bool (key y) (key x)) eqn:E.
    + apply Qle_bool_iff in E.
      constructor; [by constructor|].
      constructor; [exact E|].
      eapply Forall_impl; [exact Hy|].
      intros z Hz. eapply desc_trans; [exact E | exact Hz].
    + assert (key x < key y)%Q as Hlt.
      { apply Qnot_le_lt. intros Hle. apply Qle_bool_iff in Hle. congruence. }
      constructor; [exact IH|].
      rewrite (insert_desc_perm x l).
      constructor; [by apply Qlt_le_weak | exact Hy].
Qed.

Lemma sorted_reverse_sorted l : StronglySorted (desc key) (sorted_reverse key l).
Proof.
  induction l as [|x l IH]; simpl; [constructor|].
  by apply insert_desc_sorted.
Qed.

Lemma StronglySorted_lookup (R : A -> A -> Prop) l i j a b :
  StronglySorted R l -> (i < j)%nat ->
  l !! i = Some a -> l !! j = Some b -> R a b.
Proof.
  intros Hs. revert i j. induction Hs as [|x l Hl IH Hx]; intros i j Hij Hi Hj.
  - by rewrite lookup_nil in Hi.
  - destruct j as [|j]; [lia|]. simpl in Hj. destruct i as [|i]; simpl in Hi.
    + inversion Hi; subst. rewrite Forall_forall in Hx. apply Hx.
      by eapply list_elem_of_lookup_2.
    + eapply IH; [|eassumption|eassumption]. lia.
Qed.

Lemma sorted_reverse_before l i j a b :
  sorted_reverse key l !! i = Some a -> sorted_reverse key l !! j = Some b ->
  (key b < key a)%Q -> (i < j)%nat.
Proof.
  intros Hi Hj Hlt.
  destruct (decide (i < j)%nat) as [|Hge]; [done|]. exfalso.
  destruct (decide (i = j)) as [->|Hne].
  - rewrite Hi in Hj. injection Hj as ->. by apply Qlt_irrefl in Hlt.
  - assert (desc key b a) as Hd.
    { eapply (StronglySorted_lookup (desc key) _ j i);
        [apply sorted_reverse_sorted| lia |done|done]. }
    unfold desc in Hd. by apply Qle_not_lt in Hd.
Qed.

End SortedFacts.

(** Stability: the sort does not reorder the elements that share a key. *)
Lemma insert_desc_with_score {B} s (x : Q * B) l :
  with_score s (insert_desc fst x l) = with_score s (x :: l).
Proof.
  induction l as [|y l IH]; [reflexivity|]. simpl.
  destruct (Qle_bool (fst y) (fst x)) eqn:E; [reflexivity|].
  unfold with_score in *. simpl in *. rewrite IH.
  destruct (Qeq_bool (fst y) s) eqn:Ey, (Qeq_bool (fst x) s) eqn:Ex;
    try reflexivity.
  apply Qeq_bool_iff in Ey, Ex.
  assert (Qle_bool (fst y) (fst x) = true); [|congruence].
  apply Qle_bool_iff. rewrite Ey, Ex. apply Qle_refl.
Qed.

Lemma sorted_reverse_with_score {B} s (l : list (Q * B)) :
  with_score s (sorted_reverse fst l) = with_score s l.
Proof.
  induction l as [|x l IH]; [reflexivity|]. simpl.
  rewrite insert_desc_with_score. unfold with_score in *. simpl.
  by rewrite IH.
Qed.

Lemma with_score_all {B} s (l : list (Q * B)) :
  Forall (fun p => (fst p == s)%Q) l -> with_score s l = l.
Proof.
  induction 1 as [|x l Hx Hl IH]; [reflexivity|].
  unfold with_score in *. simpl.
  apply Qeq_bool_iff in Hx. by rewrite Hx, IH.
Qed.

(** With all keys equal the sort is the identity. *)
Lemma sorted_reverse_constant {B} s (l : list (Q * B)) :
  Forall (fun p => (fst p == s)%Q) l -> sorted_reverse fst l = l.
Proof.
  intros Hl.
  rewrite <- (with_score_all s (sorted_reverse fst l)).
  - rewrite sorted_reverse_with_score. by apply with_score_all.
  - rewrite Forall_forall in *. intros p Hp. apply Hl.
    by rewrite <- (sorted_reverse_perm fst l).
Qed.

(** ** Running computations *)

Lemma bind_Ok_inv {A B} (m : M A) (k : A -> M B) h b h' :
  bind m k h = (Ok b, h') ->
  exists a h1, m h = (Ok a, h1) /\ k a h1 = (Ok b, h').
Proof.
  unfold bind. destruct (m h) as [[a|e] h1]; [eauto|discriminate].
Qed.

Lemma bind_Ok {A B} (m : M A) (k : A -> M B) h a h1 :
  m h = (Ok a, h1) -> bind m k h = k a h1.
Proof. unfold bind. by intros ->. Qed.

Lemma emits_ret {A} P (a : A) : emits P (ret a).
Proof. intros h r h' [= <- <-]. exists []. by rewrite app_nil_r. Qed.

Lemma emits_raise {A} P e : emits P (@raise A e).
Proof. intros h r h' [= <- <-]. exists []. by rewrite app_nil_r. Qed.

Lemma emits_lift {A} P (r : result A) : emits P (lift r).
Proof. intros h r' h' [= <- <-]. exists []. by rewrite app_nil_r. Qed.

Lemma emits_lift_bind {A B} P (r : result A) (k : A -> M B) :
  (forall a, r = Ok a -> emits P (k a)) -> emits P (bind (lift r) k).
Proof.
  intros Hk h r' h'. unfold bind, lift. destruct r as [a|e].
  - by apply Hk.
  - intros [= <- <-]. exists []. by rewrite app_nil_r.
Qed.

Lemma emits_call {A} (P : event -> Prop) ev (outcome : History -> result A) :
  P ev -> emits P (call ev outcome).
Proof. intros Hev h r h' [= <- <-]. exists [ev]. split; [done|by constructor]. Qed.

Lemma emits_bind {A B} P (m : M A) (k : A -> M B) :
  emits P m -> (forall a, emits P (k a)) -> emits P (bind m k).
Proof.
  intros Hm Hk h r h'. unfold bind.
  destruct (m h) as [[a|e] h1] eqn:E; intros Hr.
  - destruct (Hm _ _ _ E) as (evs1 & -> & H1).
    destruct (Hk _ _ _ _ Hr) as (evs2 & -> & H2).
    exists (evs1 ++ evs2). rewrite app_assoc. split; [done|].
    by apply Forall_app.
  - injection Hr as <- <-. eauto.
Qed.

Lemma emits_try_except {A} P (m : M A) handler :
  emits P m -> (forall e m', handler e = Some m' -> emits P m') ->
  emits P (try_except m handler).
Proof.
  intros Hm Hh h r h'. unfold try_except.
  destruct (m h) as [[a|e] h1] eqn:E; intros Hr.
  - injection Hr as <- <-. eauto.
  - destruct (Hm _ _ _ E) as (evs1 & -> & H1).
    destruct (handler e) as [m'|] eqn:Eh.
    + destruct (Hh _ _ Eh _ _ _ Hr) as (evs2 & -> & H2).
      exists (evs1 ++ evs2). rewrite app_assoc. split; [done|].
      by apply Forall_app.
    + injection Hr as <- <-. eauto.
Qed.

Lemma emits_gather {A} P (tasks : list (M A)) :
  Forall (emits P) tasks -> emits P (gather tasks).
Proof.
  induction 1 as [|t ts Ht Hts IH]; simpl; [apply emits_ret|].
  apply emits_bind; [done|]. intros x.
  apply emits_bind; [done|]. intros xs. apply emits_ret.
Qed.

Lemma emits_weaken {A} (P Q : event -> Prop) (m : M A) :
  (forall ev, P ev -> Q ev) -> emits P m -> emits Q m.
Proof.
  intros HPQ Hm h r h' Hr. destruct (Hm _ _ _ Hr) as (evs & -> & Hevs).
  exists evs. split; [done|]. eapply Forall_impl; eauto.
Qed.

(** ** The reranker *)

Section Reranker.
Context `{PyLib}.

(** [score_document] never raises: whatever the provider does, it makes
    its one request and returns a score with the document it was given. *)
Lemma score_document_total client query doc h :
  exists s,
    RagService.score_document client query doc h
    = (Ok (s, doc), h ++ [judge_call query doc]).
Proof.
  unfold RagService.score_document, judge_call, try_except, bind, call, lift,
    ret, raise.
  destruct (RagService.chat_completions_create _ _ _ _) as [[|[text|] ?]|e];
    simpl; eauto.
  destruct (py_in _ _ && py_in _ _); simpl; eauto.
  destruct (py_json_loads _) as [parsed|[]]; simpl; eauto.
  destruct (py_get _ _ _) as [value|[]]; simpl; eauto.
  destruct (py_float _) as [s|[]]; simpl; eauto.
Qed.

Lemma gather_scores client query docs h :
  exists scored,
    gather (map (RagService.score_document client query) docs) h
    = (Ok scored, h ++ map (judge_call query) docs)
    /\ map snd scored = docs.
Proof.
  revert h. induction docs as [|d docs IH]; intros h; simpl.
  - exists []. by rewrite app_nil_r.
  - destruct (score_document_total client query d h) as (s & Hs).
    destruct (IH (h ++ [judge_call query d])) as (scored & Hg & Hmap).
    exists ((s, d) :: scored). unfold bind, ret. rewrite Hs, Hg.
    rewrite <- app_assoc. simpl. by rewrite Hmap.
Qed.

(** The reranker with a client: the documents are scored, sorted on the
    score, and returned without it. *)
Lemma rerank_scored self client query docs h :
  RagService.openai_client self = Some client ->
  exists scored,
    gather (map (RagService.score_document client query) docs) h
    = (Ok scored, h ++ map (judge_call query) docs)
    /\ map snd scored = docs
    /\ RagService._rerank_documents_with_openai self query docs h
       = (Ok (map snd (sorted_reverse fst scored)),
          h ++ map (judge_call query) docs).
Proof.
  intros Hc. destruct (gather_scores client query docs h) as (scored & Hg & Hm).
  exists scored. split; [done|]. split; [done|].
  unfold RagService._rerank_documents_with_openai. rewrite Hc.
  destruct docs as [|d docs].
  - destruct scored; [|done]. simpl. by rewrite app_nil_r.
  - unfold bind, ret. by rewrite Hg.
Qed.

Lemma rerank_perm self query docs h :
  exists out evs,
    RagService._rerank_documents_with_openai self query docs h
    = (Ok out, h ++ evs)
    /\ Permutation out docs
    /\ Forall (fun ev => ev ∈ map (judge_call query) docs) evs.
Proof.
  destruct (RagService.openai_client self) as [client|] eqn:Hc.
  - destruct (rerank_scored self client query docs h Hc)
      as (scored & _ & Hm & Hr).
    eexists _, _. split; [exact Hr|]. split.
    + rewrite <- Hm. apply Permutation_map, sorted_reverse_perm.
    + by apply Forall_forall.
  - exists docs, []. unfold RagService._rerank_documents_with_openai.
    rewrite Hc, app_nil_r. by repeat split.
Qed.

End Reranker.

Section RerankerClaims.
Context `{PyLib}.

(** The i-th document is scored in the log that the requests for the
    documents before it have extended. *)
Lemma gather_scores_lookup client query docs h scored h' i x :
  gather (map (RagService.score_document client query) docs) h
  = (Ok scored, h') ->
  docs !! i = Some x ->
  exists s,
    scored !! i = Some (s, x)
    /\ RagService.score_document client query x
         (h ++ map (judge_call query) (take i docs))
       = (Ok (s, x), h ++ map (judge_call query) (take (S i) docs)).
Proof.
  revert h scored i. induction docs as [|d docs IH]; intros h scored i Hg Hi.
  - by rewrite lookup_nil in Hi.
  - simpl in Hg. apply bind_Ok_inv in Hg as (p & h1 & Hp & Hg).
    apply bind_Ok_inv in Hg as (ps & h2 & Hps & Hg).
    injection Hg as <- <-.
    destruct (score_document_total client query d h) as (s & Hs).
    rewrite Hs in Hp. injection Hp as <- <-.
    destruct i as [|i]; simpl in *.
    + injection Hi as <-. exists s. by rewrite app_nil_r.
    + destruct (IH _ _ _ Hps Hi) as (s' & Hl & Hrun).
      exists s'. split; [done|].
      by rewrite <- !app_assoc in Hrun.
Qed.

(** What [score_document] returns for each kind of reply. *)
Lemma score_document_degraded client query doc h :
  degraded (RagService.chat_completions_create client h "gpt-5-nano"
              (RagService.judge_messages query doc)) ->
  RagService.score_document client query doc h
  = (Ok (0%Q, doc), h ++ [judge_call query doc]).
Proof.
  intros Hd.
  unfold RagService.score_document, judge_call, try_except, bind, call, lift,
    ret, raise, py_json_loads.
  set (reply := RagService.chat_completions_create _ _ _ _) in *.
  clearbody reply.
  destruct Hd as [e| |rest|text rest Hb|text rest Hb Hj|text rest v Hb Hj Hv
                 |text rest m Hb Hj Hk|text rest m v Hb Hj Hk Hv];
    simpl; try done;
    change (py_in "{" text && py_in "}" text) with (has_braces text);
    change (py_str_slice text (py_find "{" text) (py_rfind "}" text + 1))
      with (json_payload text);
    rewrite Hb; try rewrite Hj; simpl; try done.
  - destruct v; simpl; try done. by destruct (Hv m).
  - by rewrite Hk.
  - rewrite Hk. simpl. destruct Hv as [| | |s Hs]; simpl; try done.
    by rewrite Hs.
Qed.

(** A reply with a payload whose [relevance_score] [float] converts: the
    converted value is the score, as it is. *)
Lemma score_document_converted client query doc h text rest m v s :
  RagService.chat_completions_create client h "gpt-5-nano"
    (RagService.judge_messages query doc) = Ok (Some text :: rest) ->
  has_braces text = true ->
  json_loads (json_payload text) = Some (PDict m) ->
  m !! "relevance_score" = Some v ->
  py_float v = Ok s ->
  RagService.score_document client query doc h
  = (Ok (s, doc), h ++ [judge_call query doc]).
Proof.
  unfold RagService.score_document, judge_call, try_except, bind, call, lift,
    ret, raise, py_json_loads.
  intros -> Hb Hj Hk Hf. simpl.
  change (py_in "{" text && py_in "}" text) with (has_braces text).
  change (py_str_slice text (py_find "{" text) (py_rfind "}" text + 1))
    with (json_payload text).
  rewrite Hb, Hj. simpl. rewrite Hk. simpl. by rewrite Hf.
Qed.

Lemma format_result_no_score row :
  VectorDatabase.format_result row !! "relevance_score" = None.
Proof. by destruct row. Qed.

(** C3: with a judge configured, the reranker returns the candidates
    sorted on their judge score in descending order by a stable sort: the
    output is a permutation of the scored input in descending score order,
    a candidate with a strictly higher score stands before every candidate
    with a lower one, the candidates that share a score keep their input
    order, and when all scores are equal (such as the all-zero case) the
    output is the input. *)
Theorem rerank_sorted_stable self client query docs h :
  RagService.openai_client self = Some client ->
  exists scored ranked h',
    gather (map (RagService.score_document client query) docs) h
    = (Ok scored, h')
    /\ map snd scored = docs
    /\ RagService._rerank_documents_with_openai self query docs h
       = (Ok (map snd ranked), h')
    /\ Permutation ranked scored
    /\ StronglySorted (desc fst) ranked
    /\ (forall i j a b,
          ranked !! i = Some a -> ranked !! j = Some b ->
          (fst b < fst a)%Q -> (i < j)%nat)
    /\ (forall s, with_score s ranked = with_score s scored)
    /\ (forall s, Forall (fun p => (fst p == s)%Q) scored ->
                  map snd ranked = docs).
Proof.
  intros Hc.
  destruct (rerank_scored self client query docs h Hc) as (scored & Hg & Hm & Hr).
  exists scored, (sorted_reverse fst scored), (h ++ map (judge_call query) docs).
  repeat split; try done.
  - apply sorted_reverse_perm.
  - apply sorted_reverse_sorted.
  - intros i j a b. apply sorted_reverse_before.
  - intros s. apply sorted_reverse_with_score.
  - intros s Hall. by rewrite (sorted_reverse_constant s).
Qed.

(** C6: with an empty candidate list, or with no judge client configured,
    the reranker returns its input as it is and leaves the log of provider
    calls as it was. *)
Theorem rerank_noop self query docs h :
  RagService.openai_client self = None \/ docs = [] ->
  RagService._rerank_documents_with_openai self query docs h = (Ok docs, h).
Proof.
  unfold RagService._rerank_documents_with_openai.
  intros [-> | ->]; [done|]. by destruct (RagService.openai_client self).
Qed.

(** C4 (amended): with a judge configured the reranker never raises and
    returns all the candidates, a permutation of its input; a candidate
    whose judge call raised, or whose reply yields no score ([degraded]),
    is sorted with the score 0; and a candidate whose reply has a payload
    with a [relevance_score] that [float] converts, be it a number, a
    boolean or a string, is sorted with the converted value. *)
Theorem rerank_contains_judge_failures self client query docs h :
  RagService.openai_client self = Some client ->
  exists scored out h',
    gather (map (RagService.score_document client query) docs) h
    = (Ok scored, h')
    /\ RagService._rerank_documents_with_openai self query docs h
       = (Ok out, h')
    /\ out = map snd (sorted_reverse fst scored)
    /\ Permutation out docs
    /\ length out = length docs
    /\ (forall i x,
          docs !! i = Some x ->
          degraded (RagService.chat_completions_create client
                      (h ++ map (judge_call query) (take i docs))
                      "gpt-5-nano" (RagService.judge_messages query x)) ->
          scored !! i = Some (0%Q, x))
    /\ (forall i x text rest m v s,
          docs !! i = Some x ->
          RagService.chat_completions_create client
            (h ++ map (judge_call query) (take i docs))
            "gpt-5-nano" (RagService.judge_messages query x)
          = Ok (Some text :: rest) ->
          has_braces text = true ->
          json_loads (json_payload text) = Some (PDict m) ->
          m !! "relevance_score" = Some v ->
          py_float v = Ok s ->
          scored !! i = Some (s, x)).
Proof.
  intros Hc.
  destruct (rerank_scored self client query docs h Hc) as (scored & Hg & Hm & Hr).
  assert (Permutation (map snd (sorted_reverse fst scored)) docs) as Hp.
  { rewrite <- Hm. apply Permutation_map, sorted_reverse_perm. }
  eexists scored, _, _. repeat split; try done.
  - by apply Permutation_length.
  - intros i x Hi Hd.
    destruct (gather_scores_lookup _ _ _ _ _ _ _ _ Hg Hi) as (s & Hs & Hrun).
    rewrite (score_document_degraded _ _ _ _ Hd) in Hrun.
    by injection Hrun as <-.
  - intros i x text rest m v s Hi Hreply Hb Hj Hk Hf.
    destruct (gather_scores_lookup _ _ _ _ _ _ _ _ Hg Hi) as (s' & Hs & Hrun).
    rewrite (score_document_converted _ _ _ _ _ _ _ _ _ Hreply Hb Hj Hk Hf)
      in Hrun.
    by injection Hrun as <-.
Qed.

(** C5 (amended): the reranker returns the candidates it was given, each
    as it was retrieved, in a new order; the judge score is the sort key
    only and is not attached: a retrieved candidate has no
    [relevance_score] entry in the output either. *)
Theorem rerank_returns_candidates_unchanged self query docs h :
  Forall retrieved docs ->
  exists out h',
    RagService._rerank_documents_with_openai self query docs h = (Ok out, h')
    /\ Permutation out docs
    /\ Forall (fun doc => doc !! "relevance_score" = None) out.
Proof.
  intros Hdocs.
  destruct (rerank_perm self query docs h) as (out & evs & Hr & Hp & _).
  exists out, (h ++ evs). repeat split; try done.
  rewrite Hp. eapply Forall_impl; [exact Hdocs|].
  intros doc [row ->]. apply format_result_no_score.
Qed.

(** C9: the score that a judge reply states as a JSON float is the sort
    key as it is, whatever its value: it is not clamped to the interval
    from 0 to 1.  A candidate whose score is above 1 therefore stands
    before every candidate whose score is at most 1, and one whose score is
    below 0 after every candidate whose score is at least 0. *)
Theorem judge_score_not_clamped self client query docs h i x text rest m s :
  RagService.openai_client self = Some client ->
  docs !! i = Some x ->
  RagService.chat_completions_create client
    (h ++ map (judge_call query) (take i docs))
    "gpt-5-nano" (RagService.judge_messages query x)
  = Ok (Some text :: rest) ->
  has_braces text = true ->
  json_loads (json_payload text) = Some (PDict m) ->
  m !! "relevance_score" = Some (PFloat s) ->
  exists scored ranked h',
    gather (map (RagService.score_document client query) docs) h
    = (Ok scored, h')
    /\ scored !! i = Some (s, x)
    /\ RagService._rerank_documents_with_openai self query docs h
       = (Ok (map snd ranked), h')
    /\ Permutation ranked scored
    /\ ((1 < s)%Q ->
        forall p p' b,
          ranked !! p = Some (s, x) -> ranked !! p' = Some b ->
          (fst b <= 1)%Q -> (p < p')%nat)
    /\ ((s < 0)%Q ->
        forall p p' b,
          ranked !! p = Some (s, x) -> ranked !! p' = Some b ->
          (0 <= fst b)%Q -> (p' < p)%nat).
Proof.
  intros Hc Hi Hreply Hb Hj Hk.
  destruct (rerank_scored self client query docs h Hc) as (scored & Hg & Hm & Hr).
  pose proof (sorted_reverse_before (@fst Q Document) scored) as Hord.
  eexists scored, _, _. repeat split; try done.
  - destruct (gather_scores_lookup _ _ _ _ _ _ _ _ Hg Hi) as (s' & Hs & Hrun).
    rewrite (score_document_converted _ _ _ _ _ _ _ (PFloat s) s
               Hreply Hb Hj Hk eq_refl) in Hrun.
    by injection Hrun as <-.
  - apply sorted_reverse_perm.
  - intros Hs p p' b Hp1 Hp2 Hle. apply (Hord p p' _ _ Hp1 Hp2). simpl.
    eapply Qle_lt_trans; eauto.
  - intros Hs p p' b Hp1 Hp2 Hle. apply (Hord p' p _ _ Hp2 Hp1). simpl.
    eapply Qlt_le_trans; eauto.
Qed.

End RerankerClaims.

(** ** The vector database *)

Lemma lstrip_all_space s : all_space s = true -> lstrip s = "".
Proof.
  induction s as [|c s IH]; [done|]. simpl.
  intros [Hc Hs]%andb_true_iff. rewrite Hc. by apply IH.
Qed.

Lemma replace_newline_all_space s :
  all_space s = true ->
  all_space (py_replace_char (ascii_of_nat 10) " " s) = true.
Proof.
  induction s as [|c s IH]; [done|]. simpl.
  intros [Hc Hs]%andb_true_iff. rewrite (IH Hs), andb_true_r.
  by destruct (Ascii.eqb c _).
Qed.

(** A text of whitespace only is blank. *)
Lemma all_space_blank text : all_space text = true -> blank text.
Proof.
  intros Hs. unfold blank, py_strip.
  by rewrite (lstrip_all_space _ (replace_newline_all_space _ Hs)).
Qed.

(** C10 (amended): when the embedding client is configured, a text that
    is empty after newline replacement and stripping gets the empty vector,
    and no provider call is made: the log is unchanged. *)
Theorem get_embedding_blank self client text model h :
  VectorDatabase.openai_client self = Some client ->
  blank text ->
  VectorDatabase.get_embedding self text model h = (Ok [], h).
Proof.
  unfold blank, VectorDatabase.get_embedding. by intros -> ->.
Qed.

Lemma get_embedding_emits self text model :
  emits (fun ev => is_embedding_call ev = true)
    (VectorDatabase.get_embedding self text model).
Proof.
  unfold VectorDatabase.get_embedding.
  destruct (VectorDatabase.openai_client self); [|apply emits_raise].
  destruct (String.eqb _ _); [apply emits_ret|].
  apply emits_try_except.
  - apply emits_bind; [by apply emits_call|]. intros data.
    apply emits_bind; [apply emits_lift|]. intros. apply emits_ret.
  - intros e m' [= <-]. apply emits_raise.
Qed.

(** [search] asks the store once at most, with the limit it was given. *)
Lemma search_emits self query top_k :
  emits (fun ev => is_chat_call ev = false
                   /\ forall limit, store_limit ev = Some limit -> limit = top_k)
    (VectorDatabase.search self query top_k).
Proof.
  unfold VectorDatabase.search.
  destruct (VectorDatabase.openai_client self); [|apply emits_raise].
  apply emits_try_except.
  - apply emits_bind.
    + eapply emits_weaken; [|apply get_embedding_emits].
      intros [] ?; simpl in *; done.
    + intros emb. apply emits_bind; [|intros; apply emits_ret].
      apply emits_call. simpl. split; [done|]. by intros ? [= <-].
  - intros e m' [= <-]. apply emits_raise.
Qed.

(** A successful [search] has asked the store, and returns its rows as
    candidates. *)
Lemma search_Ok_inv self query top_k h docs h' :
  VectorDatabase.search self query top_k h = (Ok docs, h') ->
  exists evs embedding rows,
    VectorDatabase.session_query self (h ++ evs) embedding top_k = Ok rows
    /\ docs = map VectorDatabase.format_result rows
    /\ h' = (h ++ evs) ++ [StoreQuery embedding top_k].
Proof.
  unfold VectorDatabase.search.
  destruct (VectorDatabase.openai_client self); [|done].
  unfold try_except.
  destruct (bind _ _ h) as [[found|e] h1] eqn:E; [|done].
  intros [= -> ->].
  apply bind_Ok_inv in E as (emb & hq & Hemb & E).
  apply bind_Ok_inv in E as (rows & h2 & Hcall & E).
  injection E as <- <-. unfold call in Hcall. injection Hcall as Hq <-.
  destruct (get_embedding_emits _ _ _ _ _ _ Hemb) as (evs & -> & _).
  by exists evs, emb, rows.
Qed.

(** ** The orchestrator *)

Lemma py_slice_to_length {A} (l : list A) k :
  0 <= k -> length (py_slice_to l (Some k)) = Nat.min (Z.to_nat k) (length l).
Proof.
  intros Hk. unfold py_slice_to, py_slice, clamp_index.
  destruct (0 <? 0) eqn:E0; [done|].
  destruct (k <? 0) eqn:Ek; [lia|].
  rewrite length_take, length_drop. lia.
Qed.

Section Orchestrator.
Context `{PyLib}.

(** The answer step never raises: it asks the provider once at most, and
    any failure of the request becomes the fixed error text. *)
Lemma generate_total self query docs h :
  exists content evs,
    RagService._generate_rag_response self query docs h
    = (Ok content, h ++ evs)
    /\ Forall (fun ev => ev = answer_call query docs) evs.
Proof.
  unfold RagService._generate_rag_response.
  destruct (RagService.openai_client self) as [client|].
  - unfold try_except, bind, call, lift, ret.
    destruct (RagService.chat_completions_create _ _ _ _) as [[|c ?]|e];
      simpl; eexists _, [_]; split; try done; by repeat constructor.
  - exists (Some RagService.not_configured_text), [].
    by rewrite app_nil_r.
Qed.

Lemma generate_raise self client query docs h e :
  RagService.openai_client self = Some client ->
  RagService.chat_completions_create client h "gpt-5-nano"
    (RagService.answer_messages query docs) = Raise e ->
  RagService._generate_rag_response self query docs h
  = (Ok (Some RagService.generation_error_text),
     h ++ [answer_call query docs]).
Proof.
  unfold RagService._generate_rag_response, try_except, bind, call, lift, ret.
  by intros -> ->.
Qed.

Lemma process_query_steps self request h :
  RagService.process_query self request h
  = bind (select_documents self request) (answer_step self request) h.
Proof.
  unfold RagService.process_query, select_documents, answer_step, bind, lift.
  destruct (RagService.retrieval_limit request) as [limit|e]; [|done].
  destruct (VectorDatabase.search _ _ _ h) as [[similar_docs|e] h1]; [|done].
  destruct (truthy _ && RagService.nonempty similar_docs); [|done].
  by destruct (RagService._rerank_documents_with_openai _ _ _ h1) as [[?|?] ?].
Qed.

Lemma answer_step_empty self request h :
  answer_step self request [] h
  = (Ok {| QueryResponse.query := QueryRequest.query request;
           QueryResponse.response := RagService.no_information_text;
           QueryResponse.sources := [] |}, h).
Proof. done. Qed.

(** What the answer step returns carries the documents it was given. *)
Lemma answer_step_sources self request docs h resp h' :
  answer_step self request docs h = (Ok resp, h') ->
  QueryResponse.sources resp = docs
  /\ QueryResponse.query resp = QueryRequest.query request.
Proof.
  unfold answer_step. intros (content & h1 & _ & Hmake)%bind_Ok_inv.
  unfold lift, QueryResponse.make in Hmake.
  destruct content; [|done]. by injection Hmake as <- <-.
Qed.

Lemma answer_step_emits self request docs :
  emits (fun ev => ev = answer_call (QueryRequest.query request) docs)
    (answer_step self request docs).
Proof.
  unfold answer_step. apply emits_bind; [|intros; apply emits_lift].
  destruct (RagService.nonempty docs); [|apply emits_ret].
  intros h r h' Hr.
  destruct (generate_total self (QueryRequest.query request) docs h)
    as (content & evs & Hg & Hevs).
  rewrite Hg in Hr. injection Hr as <- <-. eauto.
Qed.

Lemma rerank_emits self query docs :
  emits (fun ev => ev ∈ map (judge_call query) docs)
    (RagService._rerank_documents_with_openai self query docs).
Proof.
  intros h r h' Hr.
  destruct (rerank_perm self query docs h) as (out & evs & Hrun & _ & Hevs).
  rewrite Hrun in Hr. injection Hr as <- <-. eauto.
Qed.

(** Steps 1 and 2 send no answer request, and ask the store with the
    retrieval limit only. *)
Lemma select_documents_emits self request :
  emits (fun ev => is_answer_call ev = false
                   /\ forall limit, store_limit ev = Some limit ->
                        RagService.retrieval_limit request = Ok limit)
    (select_documents self request).
Proof.
  unfold select_documents.
  apply emits_lift_bind. intros limit El. apply emits_bind.
  - eapply emits_weaken; [|apply search_emits].
    intros ev [Hchat Hlim]. split.
    + by destruct ev.
    + intros l Hl. by rewrite (Hlim l Hl).
  - intros similar_docs.
    destruct (truthy _ && _); [|apply emits_ret].
    apply emits_bind; [|intros; apply emits_ret].
    eapply emits_weaken; [|apply rerank_emits].
    intros ev (doc & -> & _)%list_elem_of_fmap. by split.
Qed.

(** Steps 1 and 2, when they succeed: the store was asked with the
    retrieval limit, and [final_docs] is a prefix of a permutation of the
    candidates it returned. *)
Lemma select_documents_Ok_inv self request h final_docs h1 :
  select_documents self request h = (Ok final_docs, h1) ->
  exists limit evs0 embedding rows ranked evs1,
    RagService.retrieval_limit request = Ok limit
    /\ VectorDatabase.session_query (RagService.vector_database self)
         (h ++ evs0) embedding limit = Ok rows
    /\ Permutation ranked (map VectorDatabase.format_result rows)
    /\ final_docs = py_slice_to ranked (QueryRequest.top_k request)
    /\ h1 = (h ++ evs0) ++ StoreQuery embedding limit :: evs1.
Proof.
  unfold select_documents.
  intros (limit & h0 & Hl & Hrest)%bind_Ok_inv.
  unfold lift in Hl. injection Hl as Hl <-.
  apply bind_Ok_inv in Hrest as (similar_docs & hs & Hs & Hrest).
  apply search_Ok_inv in Hs as (evs0 & emb & rows & Hq & -> & ->).
  destruct (truthy _ && _).
  - apply bind_Ok_inv in Hrest as (out & hr & Hr & Hrest).
    injection Hrest as <- <-.
    destruct (rerank_perm self (QueryRequest.query request)
                (map VectorDatabase.format_result rows)
                ((h ++ evs0) ++ [StoreQuery emb limit]))
      as (out' & evs & Hrun & Hp & _).
    rewrite Hrun in Hr. injection Hr as <- <-.
    exists limit, evs0, emb, rows, out', evs. repeat split; try done.
    by rewrite <- !app_assoc.
  - injection Hrest as <- <-.
    exists limit, evs0, emb, rows, (map VectorDatabase.format_result rows), [].
    repeat split; done.
Qed.

(** A successful run returns the documents that steps 1 and 2 selected. *)
Lemma process_query_sources self request h resp h' :
  RagService.process_query self request h = (Ok resp, h') ->
  exists final_docs h1,
    select_documents self request h = (Ok final_docs, h1)
    /\ QueryResponse.sources resp = final_docs.
Proof.
  rewrite process_query_steps.
  intros (final_docs & h1 & Hsel & Hans)%bind_Ok_inv.
  exists final_docs, h1. split; [done|].
  by apply answer_step_sources in Hans as [-> _].
Qed.

(** C1: for a request with [top_k] at least 1, the one query that the
    retrieval step sends to the vector store asks for [top_k * 3]
    candidates when reranking is requested (between [top_k] and three
    times [top_k]) and for [top_k] otherwise, and the sources of the
    response number the smaller of [top_k] and the count of the candidates
    that the store returned. *)
Theorem retrieval_limit_and_source_count self request k h r h' :
  QueryRequest.top_k request = Some k ->
  1 <= k ->
  RagService.process_query self request h = (r, h') ->
  let limit :=
    if truthy (QueryRequest.use_reranking request) then k * 3 else k in
  k <= limit <= k * 3
  /\ exists evs,
      h' = h ++ evs
      /\ Forall (fun ev => forall l, store_limit ev = Some l -> l = Some limit)
           evs
      /\ forall resp,
          r = Ok resp ->
          exists hq embedding rows,
            StoreQuery embedding (Some limit) ∈ evs
            /\ VectorDatabase.session_query (RagService.vector_database self)
                 hq embedding (Some limit) = Ok rows
            /\ length (QueryResponse.sources resp)
               = Nat.min (Z.to_nat k) (length rows).
Proof.
  intros Hk Hpos Hrun limit.
  assert (RagService.retrieval_limit request = Ok (Some limit)) as Hlimit.
  { unfold RagService.retrieval_limit, limit. rewrite Hk.
    by destruct (truthy _). }
  split. { unfold limit. destruct (truthy _); lia. }
  rewrite process_query_steps in Hrun.
  pose proof Hrun as Hev.
  apply (emits_bind
           (fun ev => forall l, store_limit ev = Some l -> l = Some limit))
    in Hev as (evs & -> & Hevs).
  - exists evs. split; [done|]. split; [done|].
    intros resp ->.
    apply bind_Ok_inv in Hrun as (final_docs & h1 & Hsel & Hans).
    apply answer_step_sources in Hans as Hsrc. destruct Hsrc as [-> _].
    apply select_documents_Ok_inv in Hsel
      as (lim & evs0 & emb & rows & ranked & evs1 & Hl & Hq & Hp & -> & ->).
    rewrite Hlimit in Hl. injection Hl as <-.
    destruct (answer_step_emits _ _ _ _ _ _ Hans) as (evs2 & Heq & _).
    exists (h ++ evs0), emb, rows. split; [|split; [done|]].
    + rewrite <- !app_assoc in Heq. apply app_inv_head in Heq. subst evs.
      set_solver.
    + rewrite Hk, py_slice_to_length by lia.
      by rewrite (Permutation_length Hp), length_map.
  - eapply emits_weaken; [|apply select_documents_emits].
    intros ev [_ Hl] l Hsl. specialize (Hl l Hsl). congruence.
  - intros final_docs.
    eapply emits_weaken; [|apply answer_step_emits]. by intros ev ->.
Qed.

(** C7: when steps 1 and 2 leave no document for the answer step, the
    response text is the fixed no-information message, the answer step
    adds nothing to the log, and the log has no answer request to the
    completion provider. *)
Theorem no_documents_no_completion self request h h1 :
  select_documents self request h = (Ok [], h1) ->
  answer_step self request [] h1
  = (Ok {| QueryResponse.query := QueryRequest.query request;
           QueryResponse.response := RagService.no_information_text;
           QueryResponse.sources := [] |}, h1)
  /\ RagService.process_query self request h
     = (Ok {| QueryResponse.query := QueryRequest.query request;
              QueryResponse.response := RagService.no_information_text;
              QueryResponse.sources := [] |}, h1)
  /\ exists evs,
      h1 = h ++ evs /\ Forall (fun ev => is_answer_call ev = false) evs.
Proof.
  intros Hsel. split; [apply answer_step_empty|]. split.
  - rewrite process_query_steps. by rewrite (bind_Ok _ _ _ _ _ Hsel).
  - destruct (select_documents_emits _ _ _ _ _ Hsel) as (evs & -> & Hevs).
    exists evs. split; [done|]. eapply Forall_impl; [exact Hevs|].
    by intros ev [? _].
Qed.

(** C8: when steps 1 and 2 have selected a non-empty list of documents
    and the completion request raises, the answer step returns the fixed
    error text instead of raising, and [process_query] returns a response
    with that text and the selected documents, in their order; these are
    the sources that any successful run with the same selection returns. *)
Theorem completion_failure_is_contained self client request h final_docs h1 e :
  RagService.openai_client self = Some client ->
  select_documents self request h = (Ok final_docs, h1) ->
  final_docs <> [] ->
  RagService.chat_completions_create client h1 "gpt-5-nano"
    (RagService.answer_messages (QueryRequest.query request) final_docs)
  = Raise e ->
  let h2 := h1 ++ [answer_call (QueryRequest.query request) final_docs] in
  RagService._generate_rag_response self (QueryRequest.query request)
    final_docs h1
  = (Ok (Some RagService.generation_error_text), h2)
  /\ RagService.process_query self request h
     = (Ok {| QueryResponse.query := QueryRequest.query request;
              QueryResponse.response := RagService.generation_error_text;
              QueryResponse.sources := final_docs |}, h2)
  /\ forall self' h0 hs resp h',
      select_documents self' request h0 = (Ok final_docs, hs) ->
      RagService.process_query self' request h0 = (Ok resp, h') ->
      QueryResponse.sources resp = final_docs.
Proof.
  intros Hc Hsel Hne Hraise h2.
  pose proof (generate_raise _ _ _ _ _ _ Hc Hraise) as Hgen.
  split; [done|]. split.
  - rewrite process_query_steps, (bind_Ok _ _ _ _ _ Hsel).
    unfold answer_step, bind. destruct final_docs; [done|]. simpl.
    by rewrite Hgen.
  - intros self' h0 hs resp h' Hsel' Hrun.
    apply process_query_sources in Hrun as (docs & h1' & Hsel'' & ->).
    congruence.
Qed.

Lemma refund_pipeline self client h h1 h2 (d0 d1 d2 d3 d4 d5 : Document) :
  RagService.openai_client self = Some client ->
  VectorDatabase.search (RagService.vector_database self) refund_query
    (Some 6) h = (Ok [d0; d1; d2; d3; d4; d5], h1) ->
  gather (map (RagService.score_document client refund_query)
            [d0; d1; d2; d3; d4; d5]) h1
  = (Ok (zip refund_scores [d0; d1; d2; d3; d4; d5]), h2) ->
  exists content h3,
    RagService._generate_rag_response self refund_query [d2; d1] h2
    = (Ok content, h3)
    /\ RagService.process_query self refund_request h
       = (QueryResponse.make refund_query content [d2; d1], h3).
Proof.
  intros Hc Hs Hg.
  destruct (generate_total self refund_query [d2; d1] h2)
    as (content & evs & Hgen & _).
  exists content, (h2 ++ evs). split; [done|].
  unfold RagService.process_query, bind, lift.
  change (RagService.retrieval_limit refund_request) with (Ok (Some 6)).
  change (QueryRequest.query refund_request) with refund_query.
  change (QueryRequest.top_k refund_request) with (Some 2).
  change (QueryRequest.use_reranking refund_request) with (Some true).
  cbv beta iota zeta. rewrite Hs.
  unfold RagService._rerank_documents_with_openai. rewrite Hc.
  unfold bind, ret.
  change (truthy (Some true) && RagService.nonempty _) with true.
  cbv beta iota. rewrite Hg.
  change (py_slice_to _ _) with [d2; d1].
  change (RagService.nonempty [d2; d1]) with true.
  cbv beta iota. by rewrite Hgen.
Qed.

(** C2: the end-to-end scenario.  For the query on the refund policy with
    [top_k = 2] and reranking requested, when the retrieval step returns
    six candidates in ascending distance (similarities 0.9, 0.85, 0.8,
    0.75, 0.7, 0.65) and the judge scores them 0.2, 0.9, 0.95, 0.1, 0.3,
    0.4 in this order, the answer step gets, and the response is built
    with, exactly two sources: the candidate at index 2, then the one at
    index 1; the response is returned whenever the answer step yields a
    text. *)
Theorem refund_scenario self client h h1 h2 c0 c1 c2 c3 c4 c5 :
  let rows := zip [c0; c1; c2; c3; c4; c5] refund_distances in
  let docs := map VectorDatabase.format_result rows in
  let first := VectorDatabase.format_result (c2, 0.2%Q) in
  let second := VectorDatabase.format_result (c1, 0.15%Q) in
  RagService.openai_client self = Some client ->
  VectorDatabase.search (RagService.vector_database self) refund_query
    (Some 6) h = (Ok docs, h1) ->
  gather (map (RagService.score_document client refund_query) docs) h1
  = (Ok (zip refund_scores docs), h2) ->
  docs !! 2%nat = Some first
  /\ docs !! 1%nat = Some second
  /\ exists content h3,
      RagService._generate_rag_response self refund_query [first; second] h2
      = (Ok content, h3)
      /\ RagService.process_query self refund_request h
         = (QueryResponse.make refund_query content [first; second], h3)
      /\ forall text,
          content = Some text ->
          RagService.process_query self refund_request h
          = (Ok {| QueryResponse.query := refund_query;
                   QueryResponse.response := text;
                   QueryResponse.sources := [first; second] |}, h3).
Proof.
  intros rows docs first second Hc Hs Hg.
  split; [done|]. split; [done|].
  destruct (refund_pipeline self client h h1 h2 _ _ _ _ _ _ Hc Hs Hg)
    as (content & h3 & Hgen & Hrun).
  exists content, h3. split; [done|]. split; [done|].
  by intros text ->.
Qed.

End Orchestrator.

(** ** The properties at concrete inputs *)

#[local] Existing Instance Demo.lib.

Lemma retrieval_limit_and_source_count_witness :
  2 <= 6 <= 2 * 3
  /\ exists evs,
      snd (RagService.process_query Demo.refund_service refund_request [])
      = [] ++ evs
      /\ Forall (fun ev => forall l, store_limit ev = Some l -> l = Some 6) evs
      /\ forall resp,
          fst (RagService.process_query Demo.refund_service refund_request [])
          = Ok resp ->
          exists hq embedding rows,
            StoreQuery embedding (Some 6) ∈ evs
            /\ VectorDatabase.session_query
                 (RagService.vector_database Demo.refund_service)
                 hq embedding (Some 6) = Ok rows
            /\ length (QueryResponse.sources resp)
               = Nat.min (Z.to_nat 2) (length rows).
Proof.
  apply (retrieval_limit_and_source_count Demo.refund_service refund_request
           2 []); [reflexivity | lia | apply surjective_pairing].
Defined.

Lemma refund_scenario_witness :
  Demo.docs !! 2%nat = Some (Demo.doc 2)
  /\ Demo.docs !! 1%nat = Some (Demo.doc 1)
  /\ exists content h3,
      RagService._generate_rag_response Demo.refund_service refund_query
        [Demo.doc 2; Demo.doc 1] Demo.scoring_log
      = (Ok content, h3)
      /\ RagService.process_query Demo.refund_service refund_request []
         = (QueryResponse.make refund_query content [Demo.doc 2; Demo.doc 1],
            h3)
      /\ forall text,
          content = Some text ->
          RagService.process_query Demo.refund_service refund_request []
          = (Ok {| QueryResponse.query := refund_query;
                   QueryResponse.response := text;
                   QueryResponse.sources := [Demo.doc 2; Demo.doc 1] |}, h3).
Proof.
  apply (refund_scenario Demo.refund_service (Demo.scripted Demo.refund_script)
           [] Demo.retrieval_log Demo.scoring_log
           (Demo.chunk 0 "c0") (Demo.chunk 1 "c1") (Demo.chunk 2 "c2")
           (Demo.chunk 3 "c3") (Demo.chunk 4 "c4") (Demo.chunk 5 "c5"));
    reflexivity.
Defined.

Lemma rerank_sorted_stable_witness :
  exists scored ranked h',
    gather (map (RagService.score_document (Demo.scripted Demo.judge_script)
                   refund_query) Demo.docs) []
    = (Ok scored, h')
    /\ map snd scored = Demo.docs
    /\ RagService._rerank_documents_with_openai Demo.failing_service
         refund_query Demo.docs []
       = (Ok (map snd ranked), h')
    /\ Permutation ranked scored
    /\ StronglySorted (desc fst) ranked
    /\ (forall i j a b,
          ranked !! i = Some a -> ranked !! j = Some b ->
          (fst b < fst a)%Q -> (i < j)%nat)
    /\ (forall s, with_score s ranked = with_score s scored)
    /\ (forall s, Forall (fun p => (fst p == s)%Q) scored ->
                  map snd ranked = Demo.docs).
Proof.
  apply (rerank_sorted_stable Demo.failing_service). reflexivity.
Defined.

Lemma rerank_noop_witness :
  RagService._rerank_documents_with_openai Demo.refund_service refund_query
    [] []
  = (Ok [], []).
Proof.
  apply (rerank_noop Demo.refund_service refund_query [] []).
  right. reflexivity.
Defined.

(** C4, as stated, fails: a reply whose [relevance_score] is the JSON
    boolean [true] states no number, and the candidate is scored 1, not 0:
    of two candidates, the one so judged is ranked above the one that the
    judge scored 0.9. *)
Lemma boolean_reply_scores_one :
  stated_score
    (RagService.chat_completions_create (Demo.scripted Demo.boolean_script)
       [] "gpt-5-nano"
       (RagService.judge_messages refund_query (Demo.doc 0))) = None
  /\ RagService.score_document (Demo.scripted Demo.boolean_script)
       refund_query (Demo.doc 0) []
     = (Ok (1%Q, Demo.doc 0), [judge_call refund_query (Demo.doc 0)])
  /\ ~ (1 == 0)%Q
  /\ fst (RagService._rerank_documents_with_openai
            (Demo.service Demo.rows Demo.boolean_script) refund_query
            [Demo.doc 0; Demo.doc 1] [])
     = Ok [Demo.doc 0; Demo.doc 1]
  /\ map snd (sorted_reverse fst [(0%Q, Demo.doc 0); (0.9%Q, Demo.doc 1)])
     = [Demo.doc 1; Demo.doc 0].
Proof. repeat split; try reflexivity. by intros ?. Qed.

Lemma rerank_contains_judge_failures_witness :
  exists scored out h',
    gather (map (RagService.score_document (Demo.scripted [])
                   refund_query) Demo.docs) []
    = (Ok scored, h')
    /\ RagService._rerank_documents_with_openai (Demo.service Demo.rows [])
         refund_query Demo.docs []
       = (Ok out, h')
    /\ out = map snd (sorted_reverse fst scored)
    /\ Permutation out Demo.docs
    /\ length out = length Demo.docs
    /\ (forall i x,
          Demo.docs !! i = Some x ->
          degraded (RagService.chat_completions_create (Demo.scripted [])
                      ([] ++ map (judge_call refund_query) (take i Demo.docs))
                      "gpt-5-nano" (RagService.judge_messages refund_query x)) ->
          scored !! i = Some (0%Q, x))
    /\ (forall i x text rest m v s,
          Demo.docs !! i = Some x ->
          RagService.chat_completions_create (Demo.scripted [])
            ([] ++ map (judge_call refund_query) (take i Demo.docs))
            "gpt-5-nano" (RagService.judge_messages refund_query x)
          = Ok (Some text :: rest) ->
          has_braces text = true ->
          json_loads (json_payload text) = Some (PDict m) ->
          m !! "relevance_score" = Some v ->
          py_float v = Ok s ->
          scored !! i = Some (s, x)).
Proof.
  apply (rerank_contains_judge_failures (Demo.service Demo.rows [])).
  reflexivity.
Defined.

(** C5, as stated, fails: the candidates that the reranker returns carry
    no relevance score. *)
Lemma reranked_candidates_carry_no_score :
  Demo.docs <> []
  /\ exists out h',
      RagService._rerank_documents_with_openai Demo.refund_service
        refund_query Demo.docs []
      = (Ok out, h')
      /\ out <> []
      /\ Forall (fun doc => ~ carries_score doc) out.
Proof.
  split; [done|].
  exists [Demo.doc 2; Demo.doc 1; Demo.doc 5; Demo.doc 4; Demo.doc 0;
          Demo.doc 3], (map (judge_call refund_query) Demo.docs).
  split; [reflexivity|]. split; [done|].
  assert (forall i, Demo.doc i !! "relevance_score" = None) as Hnone.
  { intros i. unfold Demo.doc.
    destruct (Demo.docs !! i) as [doc|] eqn:E; [|done].
    apply list_elem_of_lookup_2, list_elem_of_fmap in E as (row & -> & _).
    apply format_result_no_score. }
  repeat constructor; intros (s & Hs & _); by rewrite Hnone in Hs.
Qed.

Lemma rerank_returns_candidates_unchanged_witness :
  exists out h',
    RagService._rerank_documents_with_openai Demo.refund_service
      refund_query Demo.docs []
    = (Ok out, h')
    /\ Permutation out Demo.docs
    /\ Forall (fun doc => doc !! "relevance_score" = None) out.
Proof.
  apply (rerank_returns_candidates_unchanged Demo.refund_service).
  apply Forall_fmap, Forall_true. intros row. by exists row.
Defined.

Lemma no_documents_no_completion_witness :
  answer_step Demo.empty_service refund_request []
    (snd (select_documents Demo.empty_service refund_request []))
  = (Ok {| QueryResponse.query := QueryRequest.query refund_request;
           QueryResponse.response := RagService.no_information_text;
           QueryResponse.sources := [] |},
     snd (select_documents Demo.empty_service refund_request []))
  /\ RagService.process_query Demo.empty_service refund_request []
     = (Ok {| QueryResponse.query := QueryRequest.query refund_request;
              QueryResponse.response := RagService.no_information_text;
              QueryResponse.sources := [] |},
        snd (select_documents Demo.empty_service refund_request []))
  /\ exists evs,
      snd (select_documents Demo.empty_service refund_request []) = [] ++ evs
      /\ Forall (fun ev => is_answer_call ev = false) evs.
Proof.
  apply (no_documents_no_completion Demo.empty_service refund_request []).
  reflexivity.
Defined.

Lemma completion_failure_is_contained_witness :
  RagService._generate_rag_response Demo.failing_service
    (QueryRequest.query refund_request) [Demo.doc 2; Demo.doc 1]
    Demo.scoring_log
  = (Ok (Some RagService.generation_error_text),
     Demo.scoring_log
     ++ [answer_call (QueryRequest.query refund_request)
           [Demo.doc 2; Demo.doc 1]])
  /\ RagService.process_query Demo.failing_service refund_request []
     = (Ok {| QueryResponse.query := QueryRequest.query refund_request;
              QueryResponse.response := RagService.generation_error_text;
              QueryResponse.sources := [Demo.doc 2; Demo.doc 1] |},
        Demo.scoring_log
        ++ [answer_call (QueryRequest.query refund_request)
              [Demo.doc 2; Demo.doc 1]])
  /\ forall self' h0 hs resp h',
      select_documents self' refund_request h0
      = (Ok [Demo.doc 2; Demo.doc 1], hs) ->
      RagService.process_query self' refund_request h0 = (Ok resp, h') ->
      QueryResponse.sources resp = [Demo.doc 2; Demo.doc 1].
Proof.
  apply (completion_failure_is_contained Demo.failing_service
           (Demo.scripted Demo.judge_script) refund_request []
           [Demo.doc 2; Demo.doc 1] Demo.scoring_log
           (OtherError "APIConnectionError"));
    [reflexivity | reflexivity | discriminate
    | reflexivity].
Defined.

Lemma judge_score_not_clamped_witness :
  exists scored ranked h',
    gather (map (RagService.score_document (Demo.scripted Demo.eager_script)
                   refund_query) Demo.docs) []
    = (Ok scored, h')
    /\ scored !! 3%nat = Some (1.5%Q, Demo.doc 3)
    /\ RagService._rerank_documents_with_openai
         (Demo.service Demo.rows Demo.eager_script) refund_query Demo.docs []
       = (Ok (map snd ranked), h')
    /\ Permutation ranked scored
    /\ ((1 < 1.5)%Q ->
        forall p p' b,
          ranked !! p = Some (1.5%Q, Demo.doc 3) -> ranked !! p' = Some b ->
          (fst b <= 1)%Q -> (p < p')%nat)
    /\ ((1.5 < 0)%Q ->
        forall p p' b,
          ranked !! p = Some (1.5%Q, Demo.doc 3) -> ranked !! p' = Some b ->
          (0 <= fst b)%Q -> (p' < p)%nat).
Proof.
  apply (judge_score_not_clamped (Demo.service Demo.rows Demo.eager_script)
           (Demo.scripted Demo.eager_script) refund_query Demo.docs [] 3
           (Demo.doc 3) (Demo.payload "1.5") []
           {["relevance_score" := PFloat 1.5]} 1.5%Q);
    reflexivity.
Defined.

Lemma get_embedding_blank_witness :
  VectorDatabase.get_embedding (Demo.store (Some Demo.embedder) Demo.rows)
    (" " +:+ nl +:+ " ") "text-embedding-3-large" []
  = (Ok [], []).
Proof.
  apply (get_embedding_blank (Demo.store (Some Demo.embedder) Demo.rows)
           Demo.embedder); reflexivity.
Defined.

(** C10, as stated, fails: with no embedding client configured,
    [get_embedding] raises [ValueError] for the empty text too. *)
Lemma get_embedding_blank_unconfigured :
  blank ""
  /\ VectorDatabase.get_embedding (Demo.store None Demo.rows) ""
       "text-embedding-3-large" []
     = (Raise ValueError, []).
Proof. split; reflexivity. Qed.

(** * Further properties of the code *)

(** ** Strings *)

Lemma app_cons a s t : String a s +:+ t = String a (s +:+ t).
Proof. reflexivity. Qed.

Lemma app_empty_l s : "" +:+ s = s.
Proof. reflexivity. Qed.

Lemma append_assoc s t u : (s +:+ t) +:+ u = s +:+ (t +:+ u).
Proof.
  induction s as [|a s IH]; [done|]. rewrite !app_cons. by rewrite IH.
Qed.

Lemma append_empty_r s : s +:+ "" = s.
Proof. induction s as [|a s IH]; [done|]. rewrite app_cons. by rewrite IH. Qed.

Lemma py_in_rev_app c s1 s2 :
  py_in c (String.rev_app s1 s2) = py_in c s1 || py_in c s2.
Proof.
  revert s2. induction s1 as [|a s1 IH]; intros s2; simpl; [done|].
  rewrite IH. simpl. by destruct (Ascii.eqb a c), (py_in c s1), (py_in c s2).
Qed.

Lemma py_in_rev c s : py_in c (String.rev s) = py_in c s.
Proof. unfold String.rev. rewrite py_in_rev_app. simpl. apply orb_false_r. Qed.

Lemma py_in_lstrip c s : py_in c s = false -> py_in c (lstrip s) = false.
Proof.
  induction s as [|a s IH]; simpl; [done|].
  intros [Ha Hs]%orb_false_iff. destruct (py_isspace a); [by apply IH|].
  simpl. by rewrite Ha, Hs.
Qed.

Lemma py_in_replace c d s :
  c <> d -> py_in c (py_replace_char c d s) = false.
Proof.
  intros Hcd. induction s as [|a s IH]; simpl; [done|]. rewrite IH.
  destruct (Ascii.eqb a c) eqn:E; rewrite orb_false_r.
  - apply Ascii.eqb_neq. congruence.
  - done.
Qed.

Lemma lstrip_idemp s : lstrip (lstrip s) = lstrip s.
Proof.
  induction s as [|a s IH]; simpl; [done|].
  destruct (py_isspace a) eqn:E; [done|]. simpl. by rewrite E.
Qed.

Lemma lstrip_head s c s' : lstrip s = String c s' -> py_isspace c = false.
Proof.
  induction s as [|a s IH]; simpl; [done|].
  destruct (py_isspace a) eqn:E; [done|]. by intros [= <- _].
Qed.

Lemma lstrip_suffix s : exists w, s = w +:+ lstrip s.
Proof.
  induction s as [|a s [w IH]]; simpl; [by exists ""|].
  destruct (py_isspace a).
  - exists (String a w). rewrite app_cons. by rewrite <- IH.
  - by exists "".
Qed.

Lemma rev_app_app s1 s2 s3 :
  String.rev_app (s1 +:+ s2) s3 = String.rev_app s2 (String.rev_app s1 s3).
Proof.
  revert s3. induction s1 as [|a s1 IH]; intros s3; [done|].
  rewrite app_cons. simpl. apply IH.
Qed.

Lemma rev_app_spec s1 s2 : String.rev_app s1 s2 = String.rev s1 +:+ s2.
Proof.
  unfold String.rev. revert s2.
  induction s1 as [|a s1 IH]; intros s2; simpl; [done|].
  rewrite IH, (IH (String a "")). by rewrite append_assoc.
Qed.

Lemma rev_app_distr s1 s2 :
  String.rev (s1 +:+ s2) = String.rev s2 +:+ String.rev s1.
Proof. unfold String.rev at 1. rewrite rev_app_app. apply rev_app_spec. Qed.

Lemma rev_involutive s : String.rev (String.rev s) = s.
Proof.
  induction s as [|a s IH]; [done|].
  change (String a s) with (String a "" +:+ s) at 1.
  rewrite rev_app_distr, rev_app_distr. by rewrite IH.
Qed.

(** [s.strip()] has no whitespace at either end. *)
Lemma py_strip_trimmed s : trimmed (py_strip s).
Proof.
  unfold trimmed, py_strip. split.
  - destruct (lstrip_suffix (String.rev (lstrip s))) as [w Hw].
    set (z := lstrip (String.rev (lstrip s))) in *.
    destruct (String.rev z) as [|c x] eqn:Ex; [done|].
    assert (lstrip s = String c x +:+ String.rev w) as Hy.
    { rewrite <- (rev_involutive (lstrip s)), Hw, rev_app_distr. by rewrite Ex. }
    rewrite app_cons in Hy. apply lstrip_head in Hy. simpl. by rewrite Hy.
  - rewrite rev_involutive. apply lstrip_idemp.
Qed.

Lemma py_strip_in c s : py_in c s = false -> py_in c (py_strip s) = false.
Proof.
  intros Hs. unfold py_strip. rewrite py_in_rev. apply py_in_lstrip.
  rewrite py_in_rev. by apply py_in_lstrip.
Qed.

Lemma normalized_clean text : normalized text <> "" -> clean_text (normalized text).
Proof.
  intros Hne. split; [done|]. split; [|apply py_strip_trimmed].
  apply py_strip_in, py_in_replace. done.
Qed.

(** ** The vector database, further *)

(** Every request that [get_embedding] sends to the provider is for one
    text that is not empty, has no newline, and has no whitespace at
    either end. *)
Theorem get_embedding_sends_clean_text self text model :
  emits clean_embedding_request
    (VectorDatabase.get_embedding self text model).
Proof.
  unfold VectorDatabase.get_embedding. fold (normalized text).
  destruct (VectorDatabase.openai_client self); [|apply emits_raise].
  destruct (String.eqb _ _) eqn:E; [apply emits_ret|].
  apply String.eqb_neq in E.
  apply emits_try_except.
  - apply emits_bind; [|intros data].
    + apply emits_call. simpl. by apply normalized_clean.
    + apply emits_bind; [apply emits_lift|]. intros. apply emits_ret.
  - intros e m' [= <-]. apply emits_raise.
Qed.

Lemma blank_iff text : blank text <-> normalized text = "".
Proof. done. Qed.

Lemma get_embedding_of_blank self client text model h :
  VectorDatabase.openai_client self = Some client ->
  normalized text = "" ->
  VectorDatabase.get_embedding self text model h = (Ok [], h).
Proof.
  unfold normalized, VectorDatabase.get_embedding. by intros -> ->.
Qed.

(** For a text that is not blank, [get_embedding] sends one request with
    the normalized text and returns the first vector of the reply; a
    failure of the provider surfaces as it is, and a reply without data
    is an [IndexError].  There is no second request. *)
Theorem get_embedding_outcome self client text model h :
  VectorDatabase.openai_client self = Some client ->
  ~ blank text ->
  VectorDatabase.get_embedding self text model h
  = (match VectorDatabase.embeddings_create client h [normalized text] model
     with
     | Ok (embedding :: _) => Ok embedding
     | Ok [] => Raise IndexError
     | Raise e => Raise e
     end,
     h ++ [EmbeddingsCreate [normalized text] model]).
Proof.
  intros Hc Hb. unfold VectorDatabase.get_embedding. rewrite Hc.
  fold (normalized text).
  destruct (String.eqb _ _) eqn:E; [by apply String.eqb_eq in E|].
  unfold try_except, bind, call, lift, ret, raise, py_first.
  by destruct (VectorDatabase.embeddings_create _ _ _ _) as [[|v ?]|e].
Qed.

(** A blank query reaches the store: [search] makes no embedding request
    and queries the store with the empty vector. *)
Theorem search_blank_query self client query top_k h :
  VectorDatabase.openai_client self = Some client ->
  blank query ->
  VectorDatabase.search self query top_k h
  = (match VectorDatabase.session_query self h [] top_k with
     | Ok rows => Ok (map VectorDatabase.format_result rows)
     | Raise e => Raise e
     end,
     h ++ [StoreQuery [] top_k]).
Proof.
  intros Hc Hb. unfold VectorDatabase.search. rewrite Hc.
  unfold try_except, bind.
  rewrite (get_embedding_of_blank self client query _ h Hc Hb).
  unfold call, ret, raise.
  by destruct (VectorDatabase.session_query _ _ _ _).
Qed.

(** [search] surfaces failures as they are: when the embedding step
    raises, [search] raises the same exception and the store is not
    queried; when the store query raises, [search] raises that
    exception. *)
Theorem search_failures_surface self query top_k h :
  (forall e h1,
     VectorDatabase.get_embedding self query "text-embedding-3-large" h
     = (Raise e, h1) ->
     VectorDatabase.search self query top_k h = (Raise e, h1)
     /\ Forall (fun ev => is_store_call ev = false) (drop (length h) h1))
  /\ (forall embedding h1 e,
        VectorDatabase.get_embedding self query "text-embedding-3-large" h
        = (Ok embedding, h1) ->
        VectorDatabase.session_query self h1 embedding top_k = Raise e ->
        VectorDatabase.search self query top_k h
        = (Raise e, h1 ++ [StoreQuery embedding top_k])).
Proof.
  split.
  - intros e h1 Hemb. split.
    + unfold VectorDatabase.search.
      destruct (VectorDatabase.openai_client self) as [client|] eqn:Hc.
      * unfold try_except, bind. by rewrite Hemb.
      * unfold VectorDatabase.get_embedding in Hemb. rewrite Hc in Hemb.
        by injection Hemb as <- <-.
    + destruct (get_embedding_emits _ _ _ _ _ _ Hemb) as (evs & -> & Hevs).
      rewrite drop_app_length. eapply Forall_impl; [exact Hevs|].
      by intros [] ?.
  - intros emb h1 e Hemb Hq. unfold VectorDatabase.search.
    destruct (VectorDatabase.openai_client self) as [client|] eqn:Hc.
    + unfold try_except, bind, call, ret, raise. by rewrite Hemb, Hq.
    + unfold VectorDatabase.get_embedding in Hemb. by rewrite Hc in Hemb.
Qed.

Lemma format_result_dom row :
  dom (VectorDatabase.format_result row) = candidate_keys.
Proof.
  destruct row as [chunk distance]. unfold VectorDatabase.format_result.
  rewrite !dom_insert_L, dom_empty_L. unfold candidate_keys. set_solver.
Qed.

(** The candidates that [search] returns are the rows of the store, one
    for one and in the store's order; each has the seven keys of a
    candidate and no other, holds the row's chunk fields and distance,
    and its similarity is one minus the distance. *)
Theorem search_candidates self query top_k h docs h' :
  VectorDatabase.search self query top_k h = (Ok docs, h') ->
  exists hq embedding rows,
    VectorDatabase.session_query self hq embedding top_k = Ok rows
    /\ length docs = length rows
    /\ forall i chunk distance,
        rows !! i = Some (chunk, distance) ->
        exists doc,
          docs !! i = Some doc
          /\ dom doc = candidate_keys
          /\ doc !! "id" = Some (PInt (id chunk))
          /\ doc !! "document_id" = Some (PStr (document_id chunk))
          /\ doc !! "chunk_id" = Some (PStr (chunk_id chunk))
          /\ doc !! "filename" = Some (PStr (filename chunk))
          /\ doc !! "chunk_text" = Some (PStr (chunk_text chunk))
          /\ doc !! "distance" = Some (PFloat distance)
          /\ doc !! "similarity" = Some (PFloat (1 - distance)).
Proof.
  intros (evs & emb & rows & Hq & -> & ->)%search_Ok_inv.
  exists (h ++ evs), emb, rows. split; [done|]. split; [by rewrite length_map|].
  intros i chunk distance Hi.
  exists (VectorDatabase.format_result (chunk, distance)).
  split; [by rewrite list_lookup_fmap, Hi|].
  split; [apply format_result_dom|]. by repeat split.
Qed.

(** ** The orchestrator, further *)

Lemma py_slice_to_take {A} (l : list A) k :
  0 <= k -> py_slice_to l (Some k) = take (Z.to_nat k) l.
Proof.
  intros Hk. unfold py_slice_to, py_slice, clamp_index.
  destruct (0 <? 0) eqn:E0; [done|]. destruct (k <? 0) eqn:Ek; [lia|].
  replace (Z.min 0 (Z.of_nat (length l))) with 0 by lia.
  change (Z.to_nat 0) with 0%nat. rewrite drop_0, Z.sub_0_r.
  destruct (decide (k <= Z.of_nat (length l))).
  - by replace (Z.min k (Z.of_nat (length l))) with k by lia.
  - replace (Z.min k (Z.of_nat (length l))) with (Z.of_nat (length l)) by lia.
    rewrite Nat2Z.id. rewrite !take_ge by lia. done.
Qed.

Section OrchestratorFurther.
Context `{PyLib}.

(** With a judge configured, the reranker sends one judge request for
    each candidate, in the order of the candidates, and nothing else,
    whatever the replies are: no request is repeated or left out. *)
Theorem rerank_requests self client query docs h :
  RagService.openai_client self = Some client ->
  exists out,
    RagService._rerank_documents_with_openai self query docs h
    = (Ok out, h ++ map (judge_call query) docs)
    /\ length out = length docs.
Proof.
  intros Hc.
  destruct (rerank_scored self client query docs h Hc) as (scored & _ & Hm & Hr).
  eexists. split; [exact Hr|].
  rewrite length_map, (Permutation_length (sorted_reverse_perm fst scored)).
  by rewrite <- Hm, length_map.
Qed.

(** Without reranking, the selected documents are the first [top_k]
    candidates of the store, in the store's order, and no judge request
    is sent: the only request left is the one for the answer. *)
Theorem process_query_without_reranking self request k h docs h1 :
  truthy (QueryRequest.use_reranking request) = false ->
  QueryRequest.top_k request = Some k ->
  0 <= k ->
  VectorDatabase.search (RagService.vector_database self)
    (QueryRequest.query request) (Some k) h = (Ok docs, h1) ->
  select_documents self request h = (Ok (take (Z.to_nat k) docs), h1)
  /\ exists content evs,
      RagService.process_query self request h
      = (QueryResponse.make (QueryRequest.query request) content
           (take (Z.to_nat k) docs), h1 ++ evs)
      /\ Forall (fun ev => is_answer_call ev = true) evs.
Proof.
  intros Hr Hk Hpos Hs.
  assert (select_documents self request h = (Ok (take (Z.to_nat k) docs), h1))
    as Hsel.
  { unfold select_documents, RagService.retrieval_limit, bind, lift, ret.
    rewrite Hr, Hk, Hs. rewrite andb_false_l. by rewrite py_slice_to_take. }
  split; [done|].
  rewrite process_query_steps, (bind_Ok _ _ _ _ _ Hsel).
  unfold answer_step, bind, lift, ret.
  destruct (RagService.nonempty _) eqn:En.
  - destruct (generate_total self (QueryRequest.query request)
                (take (Z.to_nat k) docs) h1) as (content & evs & -> & Hevs).
    exists content, evs. split; [done|].
    eapply Forall_impl; [exact Hevs|]. by intros ev ->.
  - exists (Some RagService.no_information_text), [].
    rewrite app_nil_r. split; [done|constructor].
Qed.

(** A failure of the retrieval step fails the request: [process_query]
    raises the exception that [search] raised, and no request has gone to
    the chat provider. *)
Theorem process_query_retrieval_failure self request limit h e h1 :
  RagService.retrieval_limit request = Ok limit ->
  VectorDatabase.search (RagService.vector_database self)
    (QueryRequest.query request) limit h = (Raise e, h1) ->
  RagService.process_query self request h = (Raise e, h1)
  /\ exists evs,
      h1 = h ++ evs /\ Forall (fun ev => is_chat_call ev = false) evs.
Proof.
  intros Hl Hs. split.
  - unfold RagService.process_query, bind, lift. by rewrite Hl, Hs.
  - destruct (search_emits _ _ _ _ _ _ Hs) as (evs & -> & Hevs).
    exists evs. split; [done|]. eapply Forall_impl; [exact Hevs|].
    by intros ev [? _].
Qed.

(** The answer step does not contain a completion without text: when
    documents were selected and the first choice of the completion has
    no content, [process_query] raises the validation error of the
    response model. *)
Theorem process_query_empty_completion self client request h final_docs h1 rest :
  RagService.openai_client self = Some client ->
  select_documents self request h = (Ok final_docs, h1) ->
  final_docs <> [] ->
  RagService.chat_completions_create client h1 "gpt-5-nano"
    (RagService.answer_messages (QueryRequest.query request) final_docs)
  = Ok (None :: rest) ->
  RagService.process_query self request h
  = (Raise ValidationError,
     h1 ++ [answer_call (QueryRequest.query request) final_docs]).
Proof.
  intros Hc Hsel Hne Hreply.
  rewrite process_query_steps, (bind_Ok _ _ _ _ _ Hsel).
  unfold answer_step, bind. destruct final_docs as [|d ds]; [done|]. simpl.
  unfold RagService._generate_rag_response, try_except, bind, call, lift, ret.
  by rewrite Hc, Hreply.
Qed.

(** A request whose [top_k] is [None] and that asks for reranking fails
    with a [TypeError] before any external call. *)
Theorem process_query_no_top_k_reranking self request h :
  QueryRequest.top_k request = None ->
  truthy (QueryRequest.use_reranking request) = true ->
  RagService.process_query self request h = (Raise TypeError, h).
Proof.
  intros Hk Hr.
  unfold RagService.process_query, RagService.retrieval_limit, bind, lift.
  by rewrite Hr, Hk.
Qed.

(** A request whose [top_k] is [None] and that does not ask for
    reranking queries the store without a limit and selects every
    candidate the store returns. *)
Theorem process_query_no_top_k self request h docs h1 :
  QueryRequest.top_k request = None ->
  truthy (QueryRequest.use_reranking request) = false ->
  VectorDatabase.search (RagService.vector_database self)
    (QueryRequest.query request) None h = (Ok docs, h1) ->
  select_documents self request h = (Ok docs, h1)
  /\ forall resp h',
      RagService.process_query self request h = (Ok resp, h') ->
      QueryResponse.sources resp = docs.
Proof.
  intros Hk Hr Hs.
  assert (select_documents self request h = (Ok docs, h1)) as Hsel.
  { unfold select_documents, RagService.retrieval_limit, bind, lift, ret.
    rewrite Hr, Hk, Hs. by rewrite andb_false_l. }
  split; [done|]. intros resp h' Hrun.
  apply process_query_sources in Hrun as (docs' & h1' & Hsel' & ->).
  congruence.
Qed.

Lemma foldl_append_start (f : Document -> string) start docs :
  foldl (fun context doc => context +:+ f doc) start docs
  = start +:+ foldl (fun context doc => context +:+ f doc) "" docs.
Proof.
  revert start. induction docs as [|d docs IH]; intros start; simpl.
  - by rewrite append_empty_r.
  - rewrite (IH (start +:+ f d)), (IH ("" +:+ f d)), app_empty_l.
    by rewrite append_assoc.
Qed.

(** The context block lists the documents in their order: the context
    of two lists one after the other is the context of the first followed
    by the context of the second, and the context of one document is its
    entry. *)
Theorem build_context_app docs1 docs2 doc :
  RagService.build_context (docs1 ++ docs2)
  = RagService.build_context docs1 +:+ RagService.build_context docs2
  /\ RagService.build_context [doc] = RagService.context_entry doc.
Proof.
  split; [|done].
  unfold RagService.build_context. rewrite foldl_app.
  apply foldl_append_start.
Qed.

End OrchestratorFurther.

Lemma get_embedding_shape self text model h r h' :
  VectorDatabase.get_embedding self text model h = (r, h') ->
  exists embeds,
    h' = h ++ embeds
    /\ (length embeds <= 1)%nat
    /\ Forall (fun ev => is_embedding_call ev = true) embeds.
Proof.
  unfold VectorDatabase.get_embedding.
  destruct (VectorDatabase.openai_client self) as [client|].
  - destruct (String.eqb _ _).
    + intros [= <- <-]. exists []. rewrite app_nil_r. repeat split; auto.
    + unfold try_except, bind, call, lift, ret, raise.
      destruct (VectorDatabase.embeddings_create _ _ _ _) as [[|v ?]|e];
        simpl; intros [= <- <-]; eexists [_]; repeat split; auto.
  - intros [= <- <-]. exists []. rewrite app_nil_r. repeat split; auto.
Qed.

Lemma search_shape self query top_k h r h' :
  VectorDatabase.search self query top_k h = (r, h') ->
  exists embeds queries,
    h' = h ++ embeds ++ queries
    /\ (length embeds <= 1)%nat
    /\ Forall (fun ev => is_embedding_call ev = true) embeds
    /\ (length queries <= 1)%nat
    /\ Forall (fun ev => is_store_call ev = true) queries.
Proof.
  unfold VectorDatabase.search.
  destruct (VectorDatabase.openai_client self) as [client|].
  2: { intros [= <- <-]. exists [], []. rewrite app_nil_r.
       repeat split; auto. }
  unfold try_except, bind.
  destruct (VectorDatabase.get_embedding _ _ _ h) as [[emb|e] h1] eqn:E;
    apply get_embedding_shape in E as (embeds & -> & Hlen & Hemb).
  - unfold call, ret, raise.
    destruct (VectorDatabase.session_query _ _ _ _); intros [= <- <-];
      exists embeds, [StoreQuery emb top_k]; rewrite <- app_assoc;
      repeat split; auto.
  - unfold raise. intros [= <- <-]. exists embeds, [].
    rewrite app_nil_r. repeat split; auto.
Qed.

Section CallPattern.
Context `{PyLib}.

Lemma rerank_shape self query docs h r h' :
  RagService._rerank_documents_with_openai self query docs h = (r, h') ->
  exists judges,
    h' = h ++ judges /\ Forall (fun ev => is_judge_call ev = true) judges.
Proof.
  intros Hr.
  destruct (rerank_emits self query docs _ _ _ Hr) as (evs & -> & Hevs).
  exists evs. split; [done|]. eapply Forall_impl; [exact Hevs|].
  by intros ev (doc & -> & _)%list_elem_of_fmap.
Qed.

Lemma answer_step_shape self request docs h r h' :
  answer_step self request docs h = (r, h') ->
  exists answers,
    h' = h ++ answers
    /\ (length answers <= 1)%nat
    /\ Forall (fun ev => is_answer_call ev = true) answers.
Proof.
  unfold answer_step, bind, lift, ret.
  destruct (RagService.nonempty docs).
  - unfold RagService._generate_rag_response.
    destruct (RagService.openai_client self) as [client|].
    + unfold try_except, bind, call, lift, ret.
      destruct (RagService.chat_completions_create _ _ _ _) as [[|c ?]|e];
        simpl; intros [= <- <-]; eexists [_]; repeat split; auto.
    + unfold ret. intros [= <- <-]. exists []. rewrite app_nil_r.
      repeat split; auto.
  - intros [= <- <-]. exists []. rewrite app_nil_r. repeat split; auto.
Qed.

(** One run of [process_query], whether it returns or raises, makes its
    external calls in a fixed order and never repeats one: at most one
    embedding request, then at most one store query, then judge requests
    only, then at most one answer request. *)
Theorem process_query_call_pattern self request h r h' :
  RagService.process_query self request h = (r, h') ->
  exists evs, h' = h ++ evs /\ call_pattern evs.
Proof.
  rewrite process_query_steps. unfold bind at 1.
  destruct (select_documents self request h) as [sel h1] eqn:Hsel.
  assert (exists embeds queries judges,
             h1 = h ++ embeds ++ queries ++ judges
             /\ (length embeds <= 1)%nat
             /\ Forall (fun ev => is_embedding_call ev = true) embeds
             /\ (length queries <= 1)%nat
             /\ Forall (fun ev => is_store_call ev = true) queries
             /\ Forall (fun ev => is_judge_call ev = true) judges)
    as (embeds & queries & judges & -> & He & Hbe & Hq & Hbq & Hj).
  { revert Hsel. unfold select_documents, bind at 1, lift.
    destruct (RagService.retrieval_limit request) as [limit|e].
    2: { intros [= <- <-]. exists [], [], []. rewrite app_nil_r.
         repeat split; auto. }
    unfold bind at 1.
    destruct (VectorDatabase.search _ _ _ h) as [[docs|e] hs] eqn:Hs;
      apply search_shape in Hs as (embeds & queries & -> & ? & ? & ? & ?).
    2: { intros [= <- <-]. exists embeds, queries, [].
         rewrite app_nil_r. repeat split; auto. }
    destruct (truthy _ && _).
    - unfold bind.
      destruct (RagService._rerank_documents_with_openai _ _ _ _)
        as [rr hr] eqn:Hr.
      apply rerank_shape in Hr as (judges & -> & ?).
      intros Heq. exists embeds, queries, judges.
      split; [|by repeat split].
      destruct rr; injection Heq as <- <-; by rewrite <- !app_assoc.
    - intros [= <- <-]. exists embeds, queries, [].
      rewrite app_nil_r. repeat split; auto. }
  destruct sel as [final_docs|e].
  - intros (answers & -> & Ha & Hba)%answer_step_shape.
    exists (embeds ++ queries ++ judges ++ answers).
    split; [by rewrite <- !app_assoc|].
    exists embeds, queries, judges, answers. by repeat split.
  - intros [= <- <-]. exists (embeds ++ queries ++ judges ++ []).
    split; [by rewrite app_nil_r|].
    exists embeds, queries, judges, []. repeat split; auto.
Qed.

End CallPattern.

(** ** The payload of a judge reply *)

Lemma py_in_app c s t : py_in c (s +:+ t) = py_in c s || py_in c t.
Proof.
  induction s as [|a s IH]; [done|]. rewrite app_cons. simpl.
  rewrite IH. by rewrite orb_assoc.
Qed.

Lemma index_of_app c pre rest :
  py_in c pre = false ->
  index_of c (pre +:+ String c rest) = Some (String.length pre).
Proof.
  induction pre as [|a pre IH].
  - intros _. rewrite app_empty_l. simpl. by rewrite Ascii.eqb_refl.
  - intros Hin. simpl in Hin. apply orb_false_iff in Hin as [Ha Hp].
    rewrite app_cons. simpl. by rewrite Ha, (IH Hp).
Qed.

Lemma last_index_of_absent c s : py_in c s = false -> last_index_of c s = None.
Proof.
  induction s as [|a s IH]; simpl; [done|].
  intros [Ha Hs]%orb_false_iff. by rewrite (IH Hs), Ha.
Qed.

Lemma last_index_of_app c s post :
  py_in c post = false ->
  last_index_of c (s +:+ String c post) = Some (String.length s).
Proof.
  intros Hp. induction s as [|a s IH].
  - rewrite app_empty_l. simpl.
    by rewrite (last_index_of_absent _ _ Hp), Ascii.eqb_refl.
  - rewrite app_cons. simpl. by rewrite IH.
Qed.

Lemma list_ascii_of_string_app s t :
  String.list_ascii_of_string (s +:+ t)
  = String.list_ascii_of_string s ++ String.list_ascii_of_string t.
Proof.
  induction s as [|a s IH]; [done|]. rewrite app_cons. simpl. by rewrite IH.
Qed.

Lemma list_ascii_of_string_length s :
  length (String.list_ascii_of_string s) = String.length s.
Proof. induction s as [|a s IH]; simpl; [done|]. by rewrite IH. Qed.

Lemma string_length_app s t :
  String.length (s +:+ t) = (String.length s + String.length t)%nat.
Proof.
  induction s as [|a s IH]; [done|]. rewrite app_cons. simpl. by rewrite IH.
Qed.

(** The slice of a text from the end of a prefix over the length of the
    part that follows is that part. *)
Lemma py_str_slice_middle pre mid post :
  py_str_slice (pre +:+ mid +:+ post)
    (Z.of_nat (String.length pre))
    (Z.of_nat (String.length pre + String.length mid))
  = mid.
Proof.
  unfold py_str_slice, py_slice, clamp_index.
  rewrite !list_ascii_of_string_app, !length_app,
    !list_ascii_of_string_length.
  set (a := String.length pre). set (b := String.length mid).
  set (c := String.length post).
  assert (length (String.list_ascii_of_string pre) = a) as Hla
    by apply list_ascii_of_string_length.
  assert (length (String.list_ascii_of_string mid) = b) as Hlb
    by apply list_ascii_of_string_length.
  clearbody a b c.
  destruct (Z.of_nat a <? 0) eqn:Ea; [lia|].
  destruct (Z.of_nat (a + b) <? 0) eqn:Eb; [apply Z.ltb_lt in Eb; lia|].
  replace (Z.min (Z.of_nat a) (Z.of_nat (a + (b + c)))) with (Z.of_nat a)
    by lia.
  replace (Z.min (Z.of_nat (a + b)) (Z.of_nat (a + (b + c))))
    with (Z.of_nat (a + b)) by lia.
  replace (Z.to_nat (Z.of_nat (a + b) - Z.of_nat a)) with b by lia.
  rewrite Nat2Z.id.
  rewrite drop_app_length' by done.
  rewrite take_app_length' by done.
  apply String.string_of_list_ascii_of_string.
Qed.

(** The payload of a reply that wraps an object in prose: when no
    opening brace comes before the object and no closing brace after it,
    the payload is the object, braces included. *)
Lemma json_payload_between_braces pre mid post :
  py_in "{" pre = false ->
  py_in "}" post = false ->
  has_braces (pre +:+ "{" +:+ mid +:+ "}" +:+ post) = true
  /\ json_payload (pre +:+ "{" +:+ mid +:+ "}" +:+ post)
     = "{" +:+ mid +:+ "}".
Proof.
  intros Hpre Hpost. split.
  - unfold has_braces. rewrite !py_in_app. simpl.
    by rewrite !orb_true_r.
  - unfold json_payload, py_find, py_rfind.
    change ("{" +:+ mid +:+ "}" +:+ post)
      with (String "{" (mid +:+ "}" +:+ post)).
    rewrite (index_of_app _ _ _ Hpre).
    replace (pre +:+ String "{" (mid +:+ "}" +:+ post))
      with ((pre +:+ "{" +:+ mid) +:+ String "}" post)
      by (by rewrite !append_assoc).
    rewrite (last_index_of_app _ _ _ Hpost).
    replace ((pre +:+ "{" +:+ mid) +:+ String "}" post)
      with (pre +:+ ("{" +:+ mid +:+ "}") +:+ post)
      by (by rewrite !append_assoc).
    replace (Z.of_nat (String.length (pre +:+ "{" +:+ mid)) + 1)
      with (Z.of_nat (String.length pre
                      + String.length ("{" +:+ mid +:+ "}"))).
    + apply py_str_slice_middle.
    + rewrite !string_length_app. simpl. lia.
Qed.

Section JudgeReplies.
Context `{PyLib}.

(** A judge may wrap its JSON object in prose: when the reply has no
    opening brace before the object and no closing brace after it, the
    object alone is parsed and the score is the converted value of its
    [relevance_score]. *)
Theorem score_document_tolerates_prose client query doc h pre mid post rest m v s :
  RagService.chat_completions_create client h "gpt-5-nano"
    (RagService.judge_messages query doc)
  = Ok (Some (pre +:+ "{" +:+ mid +:+ "}" +:+ post) :: rest) ->
  py_in "{" pre = false ->
  py_in "}" post = false ->
  json_loads ("{" +:+ mid +:+ "}") = Some (PDict m) ->
  m !! "relevance_score" = Some v ->
  py_float v = Ok s ->
  RagService.score_document client query doc h
  = (Ok (s, doc), h ++ [judge_call query doc]).
Proof.
  intros Hreply Hpre Hpost Hj Hk Hf.
  destruct (json_payload_between_braces pre mid post Hpre Hpost) as [Hb Hp].
  eapply score_document_converted; eauto. by rewrite Hp.
Qed.

End JudgeReplies.

(** ** The ask endpoint *)

Lemma py_strip_all_space s : all_space s = true -> py_strip s = "".
Proof. intros Hs. unfold py_strip. by rewrite (lstrip_all_space _ Hs). Qed.

Section AskEndpoint.
Context `{PyLib}.

(** A query that is empty or all whitespace is refused with status 400
    before anything else happens: no external call is made. *)
Theorem ask_blank_query request rag_service h :
  all_space (QueryRequest.query request) = true ->
  Ask.ask request rag_service h
  = (Ask.HTTPException 400 "Query cannot be empty", h).
Proof.
  intros Hs. unfold Ask.ask. by rewrite (py_strip_all_space _ Hs).
Qed.

(** The endpoint lets no exception of the pipeline through: whenever it
    raises, it raises status 400 with the log untouched, or status 500
    with the fixed detail after [process_query] raised; and whenever it
    returns, it returns the response of [process_query]. *)
Theorem ask_outcomes request rag_service h out h' :
  Ask.ask request rag_service h = (out, h') ->
  match out with
  | Ask.Returns response =>
      RagService.process_query rag_service request h = (Ok response, h')
  | Ask.HTTPException status_code detail =>
      (status_code = 400 /\ detail = "Query cannot be empty" /\ h' = h
       /\ py_strip (QueryRequest.query request) = "")
      \/ (status_code = 500 /\ detail = "Internal server error"
          /\ exists e,
              RagService.process_query rag_service request h = (Raise e, h'))
  end.
Proof.
  unfold Ask.ask. destruct (String.eqb _ _) eqn:E.
  - intros [= <- <-]. left. by apply String.eqb_eq in E.
  - destruct (RagService.process_query _ _ _) as [[response|e] h1];
      intros [= <- <-]; [done|]. right. eauto.
Qed.

(** A failure of the answer generation still gives a successful reply:
    for a query that is not blank, when documents were selected and the
    completion request raises, the endpoint returns the response with the
    fixed error text and the selected documents. *)
Theorem ask_degraded_answer request rag_service client h final_docs h1 e :
  py_strip (QueryRequest.query request) <> "" ->
  RagService.openai_client rag_service = Some client ->
  select_documents rag_service request h = (Ok final_docs, h1) ->
  final_docs <> [] ->
  RagService.chat_completions_create client h1 "gpt-5-nano"
    (RagService.answer_messages (QueryRequest.query request) final_docs)
  = Raise e ->
  Ask.ask request rag_service h
  = (Ask.Returns
       {| QueryResponse.query := QueryRequest.query request;
          QueryResponse.response := RagService.generation_error_text;
          QueryResponse.sources := final_docs |},
     h1 ++ [answer_call (QueryRequest.query request) final_docs]).
Proof.
  intros Hq Hc Hsel Hne Hraise. unfold Ask.ask.
  destruct (String.eqb _ _) eqn:E; [by apply String.eqb_eq in E|].
  rewrite process_query_steps, (bind_Ok _ _ _ _ _ Hsel).
  unfold answer_step, bind. destruct final_docs as [|d ds]; [done|]. simpl.
  by rewrite (generate_raise _ _ _ _ _ _ Hc Hraise).
Qed.

(** A failure of the retrieval step is answered with status 500 and the
    fixed detail, and no request has gone to the chat provider. *)
Theorem ask_retrieval_failure request rag_service limit h e h1 :
  py_strip (QueryRequest.query request) <> "" ->
  RagService.retrieval_limit request = Ok limit ->
  VectorDatabase.search (RagService.vector_database rag_service)
    (QueryRequest.query request) limit h = (Raise e, h1) ->
  Ask.ask request rag_service h
  = (Ask.HTTPException 500 "Internal server error", h1)
  /\ Forall (fun ev => is_chat_call ev = false) (drop (length h) h1).
Proof.
  intros Hq Hl Hs. split.
  - unfold Ask.ask.
    destruct (String.eqb _ _) eqn:E; [by apply String.eqb_eq in E|].
    unfold RagService.process_query, bind, lift. by rewrite Hl, Hs.
  - destruct (search_emits _ _ _ _ _ _ Hs) as (evs & -> & Hevs).
    rewrite drop_app_length. eapply Forall_impl; [exact Hevs|].
    by intros ev [? _].
Qed.

End AskEndpoint.

(** ** Conversation titles *)

Lemma string_of_list_ascii_length l :
  String.length (String.string_of_list_ascii l) = length l.
Proof. induction l as [|a l IH]; simpl; [done|]. by rewrite IH. Qed.

Lemma string_of_list_ascii_app l1 l2 :
  String.string_of_list_ascii (l1 ++ l2)
  = String.string_of_list_ascii l1 +:+ String.string_of_list_ascii l2.
Proof.
  induction l1 as [|a l1 IH]; [done|]. simpl. rewrite app_cons. by rewrite IH.
Qed.

Lemma py_str_slice_take s n :
  0 <= n ->
  py_str_slice s 0 n
  = String.string_of_list_ascii
      (take (Z.to_nat n) (String.list_ascii_of_string s)).
Proof.
  intros Hn. unfold py_str_slice.
  by rewrite <- (py_slice_to_take _ n Hn).
Qed.

Lemma py_str_slice_length s n :
  0 <= n -> Titles.py_len (py_str_slice s 0 n) <= n.
Proof.
  intros Hn. unfold Titles.py_len.
  rewrite py_str_slice_take, string_of_list_ascii_length, length_take by done.
  lia.
Qed.

(** [s[:n]] is the prefix of [s] of length [n], when [s] is that long. *)
Lemma py_str_slice_prefix s n :
  0 <= n <= Titles.py_len s ->
  exists rest,
    s = py_str_slice s 0 n +:+ rest
    /\ Titles.py_len (py_str_slice s 0 n) = n.
Proof.
  unfold Titles.py_len. intros Hn.
  exists (String.string_of_list_ascii
            (drop (Z.to_nat n) (String.list_ascii_of_string s))).
  rewrite py_str_slice_take by lia. split.
  - rewrite <- string_of_list_ascii_app, take_drop.
    by rewrite String.string_of_list_ascii_of_string.
  - rewrite string_of_list_ascii_length, length_take,
      list_ascii_of_string_length. lia.
Qed.

Lemma py_len_app s t :
  Titles.py_len (s +:+ t) = Titles.py_len s + Titles.py_len t.
Proof. unfold Titles.py_len. rewrite string_length_app. lia. Qed.

Lemma shortened_length q : Titles.py_len (Titles.shortened q) <= 53.
Proof.
  unfold Titles.shortened. destruct (50 <? Titles.py_len q) eqn:E.
  - rewrite py_len_app. pose proof (py_str_slice_length q 50).
    change (Titles.py_len "...") with 3. lia.
  - apply Z.ltb_ge in E. lia.
Qed.

(** A generated title is never longer than 103 characters, and never
    longer than 53 when it is cut from the query. *)
Theorem title_length_bounded model available client first_query :
  Titles.py_len (Titles.generate_title model available client first_query)
  <= 103
  /\ (client = None \/ available = false ->
      Titles.py_len
        (Titles.generate_title model available client first_query) <= 53).
Proof.
  pose proof (shortened_length first_query) as Hs.
  unfold Titles.generate_title. split.
  - destruct client as [c|]; [|lia]. destruct available; [|lia].
    destruct (Titles.chat_completions_create _ _ _ _) as [[|[content|] ?]|e];
      try lia.
    destruct (100 <? _) eqn:E.
    + rewrite py_len_app.
      pose proof (py_str_slice_length (py_strip content) 100).
      change (Titles.py_len "...") with 3. lia.
    + apply Z.ltb_ge in E. lia.
  - intros [-> | ->]; [done|]. by destruct client.
Qed.

(** Without a usable client, and whenever the completion request raises
    or its reply has no text, the title is cut from the query: the query
    itself when it has at most 50 characters, else its first 50
    characters followed by three dots. *)
Theorem title_falls_back model available client first_query :
  match client with
  | None => True
  | Some c =>
      available = false
      \/ match Titles.chat_completions_create c model
                 (Titles.title_messages first_query) 20 with
         | Ok (Some _ :: _) => False
         | _ => True
         end
  end ->
  Titles.generate_title model available client first_query
  = Titles.shortened first_query
  /\ (Titles.py_len first_query <= 50 ->
      Titles.shortened first_query = first_query)
  /\ (50 < Titles.py_len first_query ->
      exists prefix rest,
        first_query = prefix +:+ rest
        /\ Titles.py_len prefix = 50
        /\ Titles.shortened first_query = prefix +:+ "...").
Proof.
  intros Hc. split; [|split].
  - unfold Titles.generate_title. destruct client as [c|]; [|done].
    destruct available; [|done]. destruct Hc as [|Hc]; [done|].
    by destruct (Titles.chat_completions_create _ _ _ _) as [[|[?|] ?]|?].
  - intros Hle. unfold Titles.shortened.
    destruct (50 <? _) eqn:E; [apply Z.ltb_lt in E; lia|done].
  - intros Hlt. unfold Titles.shortened.
    destruct (50 <? _) eqn:E; [|apply Z.ltb_ge in E; lia].
    destruct (py_str_slice_prefix first_query 50) as (rest & Hq & Hlen);
      [lia|].
    by exists (py_str_slice first_query 0 50), rest.
Qed.

(** A reply of whitespace only gives the empty title: the method does
    not fall back to the query then. *)
Theorem title_of_blank_reply model c first_query content rest :
  Titles.chat_completions_create c model
    (Titles.title_messages first_query) 20 = Ok (Some content :: rest) ->
  all_space content = true ->
  Titles.generate_title model true (Some c) first_query = "".
Proof.
  intros Hreply Hs. unfold Titles.generate_title.
  by rewrite Hreply, (py_strip_all_space _ Hs).
Qed.

(** ** Ingestion *)

Section IngestionFacts.
Import Ingestion.

Lemma omap_merged_provider evs : omap merged (map Provider evs) = [].
Proof. induction evs as [|e evs IH]; [done|]. exact IH. Qed.

Lemma provider_get_embedding self text log r log' :
  provider (get_embedding self text) log = (r, log') ->
  exists evs,
    log' = log ++ map Provider evs
    /\ Forall (fun e => is_embedding_call e = true) evs
    /\ forall s vec,
        text = PStr s -> blank s -> r = Ok vec -> vec = [].
Proof.
  unfold provider.
  destruct (get_embedding self text (provider_log log)) as [r' h'] eqn:E.
  intros [= <- <-].
  assert (exists evs, h' = provider_log log ++ evs
                      /\ Forall (fun e => is_embedding_call e = true) evs)
    as (evs & -> & Hevs).
  { unfold get_embedding in E. destruct text;
      try (destruct (VectorDatabase.openai_client self);
           injection E as <- <-; exists []; by rewrite app_nil_r).
    by apply get_embedding_emits in E. }
  exists evs. rewrite drop_app_length. split; [done|]. split; [done|].
  intros s vec -> Hb ->. simpl in E.
  destruct (VectorDatabase.openai_client self) as [client|] eqn:Hc.
  - rewrite (get_embedding_of_blank self client s _ _ Hc Hb) in E.
    by injection E as <- _.
  - unfold VectorDatabase.get_embedding in E. by rewrite Hc in E.
Qed.

(** The loop: its events are embedding requests and merges, and when it
    completes, the merged chunks are those of the complete sections, in
    their order. *)
Lemma merge_sections_log self session sections log r log' :
  merge_sections self session sections log = (r, log') ->
  exists body,
    log' = log ++ body
    /\ Forall loop_event body
    /\ (r = Ok tt ->
        Forall2 chunk_of (List.filter complete sections) (omap merged body)).
Proof.
  revert log. induction sections as [|section rest IH]; intros log; simpl.
  - intros [= <- <-]. exists []. rewrite app_nil_r. by repeat split.
  - destruct (complete section) eqn:Hc; simpl; [|apply IH].
    unfold bind at 1.
    destruct (provider _ log) as [[vec|e] log1] eqn:Hp;
      apply provider_get_embedding in Hp as (evs & -> & Hevs & Hblank).
    2: { intros [= <- <-]. exists (map Provider evs).
         split; [done|]. split; [by apply Forall_fmap|]. done. }
    unfold bind at 1, call.
    destruct (merge session _ _) as [[]|e].
    2: { intros [= <- <-]. eexists (map Provider evs ++ [_]).
         rewrite <- app_assoc. split; [done|].
         split; [|done]. apply Forall_app. split; [by apply Forall_fmap|].
         by repeat constructor. }
    intros (body & -> & Hbody & Hok)%IH.
    eexists (map Provider evs ++ [_] ++ body).
    rewrite <- !app_assoc. split; [done|]. split.
    + apply Forall_app. split; [by apply Forall_fmap|].
      constructor; [done|exact Hbody].
    + intros Hr. rewrite omap_app, omap_merged_provider. simpl.
      constructor; [|by apply Hok].
      repeat split. simpl. intros s Hs Hb. by eapply Hblank.
Qed.

Lemma loop_event_not_end ev : loop_event ev -> ends_session ev = false.
Proof. by destruct ev as [|[]]. Qed.

(** Whatever happens in a call of [add_document_sections] on a list
    that is not empty, the session is closed, once, as the last operation;
    a rollback happens once at most, right before the close, and only in
    a call that raises. *)
Theorem add_document_sections_closes self session sections log r log' :
  sections <> [] ->
  add_document_sections self session sections log = (r, log') ->
  exists body,
    Forall (fun ev => ends_session ev = false) body
    /\ (log' = log ++ body ++ [Session Close]
        \/ (log' = log ++ body ++ [Session Rollback; Session Close]
            /\ exists e, r = Raise e)).
Proof.
  intros Hne. unfold add_document_sections.
  destruct sections as [|s0 rest0] eqn:Hsec; [done|]. rewrite <- Hsec.
  clear Hne Hsec s0 rest0.
  unfold try_finally, try_except, bind at 1.
  destruct (merge_sections _ _ _ log) as [[[]|e] log1] eqn:Hm;
    apply merge_sections_log in Hm as (body & -> & Hbody & _);
    assert (Forall (fun ev => ends_session ev = false) body) as Hb
      by (eapply Forall_impl; [exact Hbody|apply loop_event_not_end]).
  - unfold bind at 1, call at 1.
    destruct (commit session _) as [[]|e].
    + unfold bind at 1, lift.
      destruct (document_ids sections) as [vs|e].
      * unfold bind, call, ret.
        destruct (query_ids session _ vs) as [ids|e].
        -- intros Hr. exists (body ++ [Session Commit; Session (QueryIds vs)]).
           split; [apply Forall_app; split; [done|by repeat constructor]|].
           left. destruct (close session _); injection Hr as <- <-;
             by rewrite <- !app_assoc.
        -- unfold raise. intros Hr.
           exists (body ++ [Session Commit; Session (QueryIds vs)]).
           split; [apply Forall_app; split; [done|by repeat constructor]|].
           right.
           destruct (rollback session _) as [[]|e'];
             destruct (close session _) as [[]|e''];
             injection Hr as <- <-; rewrite <- !app_assoc; eauto.
      * unfold bind, call, raise. intros Hr.
        exists (body ++ [Session Commit]).
        split; [apply Forall_app; split; [done|by repeat constructor]|].
        right.
        destruct (rollback session _) as [[]|e'];
          destruct (close session _) as [[]|e''];
          injection Hr as <- <-; rewrite <- !app_assoc; eauto.
    + unfold bind, call, raise. intros Hr.
      exists (body ++ [Session Commit]).
      split; [apply Forall_app; split; [done|by repeat constructor]|].
      right.
      destruct (rollback session _) as [[]|e'];
        destruct (close session _) as [[]|e''];
        injection Hr as <- <-; rewrite <- !app_assoc; eauto.
  - unfold bind, call, raise. intros Hr. exists body. split; [done|].
    right.
    destruct (rollback session _) as [[]|e'];
      destruct (close session _) as [[]|e''];
      injection Hr as <- <-; rewrite <- !app_assoc; eauto.
Qed.

End IngestionFacts.

Section IngestionOutcomes.
Import Ingestion.

Lemma document_ids_Ok sections vs :
  document_ids sections = Ok vs ->
  Forall2 (fun section v => section !! "document_id" = Some v) sections vs.
Proof.
  revert vs. induction sections as [|s rest IH]; intros vs; simpl.
  - intros [= <-]. constructor.
  - destruct (s !! "document_id") as [v|] eqn:E; [|done].
    destruct (document_ids rest) as [vs'|]; [|done].
    intros [= <-]. constructor; [done|by apply IH].
Qed.

Lemma document_ids_missing sections section :
  section ∈ sections -> section !! "document_id" = None ->
  document_ids sections = Raise KeyError.
Proof.
  intros Hin Hnone. induction sections as [|s rest IH]; [by inversion Hin|].
  simpl. apply elem_of_cons in Hin as [<-|Hin].
  - by rewrite Hnone.
  - destruct (s !! "document_id"); [|done]. by rewrite (IH Hin).
Qed.

(** A call of [add_document_sections] that returns has merged one chunk
    for each complete section, in their order and with their fields, a
    blank text with the empty vector, has skipped the other sections, has
    then committed, and has then asked for the ids with the
    [document_id] of every section, the skipped ones too; it returns what
    that query gives. *)
Theorem add_document_sections_returns self session sections log ids log' :
  sections <> [] ->
  add_document_sections self session sections log = (Ok ids, log') ->
  exists body vs,
    log' = log ++ body
           ++ [Session Commit; Session (QueryIds vs); Session Close]
    /\ Forall loop_event body
    /\ Forall2 chunk_of (List.filter complete sections) (omap merged body)
    /\ Forall2 (fun section v => section !! "document_id" = Some v)
         sections vs
    /\ query_ids session (log ++ body ++ [Session Commit]) vs = Ok ids.
Proof.
  intros Hne. unfold add_document_sections.
  destruct sections as [|s0 rest0] eqn:Hsec; [done|]. rewrite <- Hsec.
  clear Hne Hsec s0 rest0.
  unfold try_finally, try_except, bind at 1.
  destruct (merge_sections _ _ _ log) as [[[]|e] log1] eqn:Hm;
    apply merge_sections_log in Hm as (body & -> & Hbody & Hchunks).
  2: { unfold bind, call, raise. intros Hr.
       by destruct (rollback session _) as [[]|?],
                   (close session _) as [[]|?]. }
  unfold bind at 1, call at 1.
  destruct (commit session _) as [[]|e].
  2: { unfold bind, call, raise. intros Hr.
       by destruct (rollback session _) as [[]|?],
                   (close session _) as [[]|?]. }
  unfold bind at 1, lift.
  destruct (document_ids sections) as [vs|e] eqn:Hids.
  2: { unfold bind, call, raise. intros Hr.
       by destruct (rollback session _) as [[]|?],
                   (close session _) as [[]|?]. }
  unfold bind, call, ret, raise.
  destruct (query_ids session _ vs) as [ids'|e] eqn:Hq.
  2: { intros Hr.
       by destruct (rollback session _) as [[]|?],
                   (close session _) as [[]|?]. }
  intros Hr. destruct (close session _) as [[]|?]; [|done].
  injection Hr as <- <-. exists body, vs.
  rewrite <- !app_assoc in *. repeat split; auto.
  by apply document_ids_Ok.
Qed.

(** When the loop raises, for instance on a failed embedding request, the
    batch is not committed: the session is rolled back and closed, and
    the exception of the loop is raised. *)
Theorem add_document_sections_failed_batch self session sections log e log1 :
  merge_sections self session sections log = (Raise e, log1) ->
  rollback session log1 = Ok tt ->
  close session (log1 ++ [Session Rollback]) = Ok tt ->
  add_document_sections self session sections log
  = (Raise e, log1 ++ [Session Rollback; Session Close])
  /\ Forall (fun ev => ev <> Session Commit) (drop (length log) log1).
Proof.
  intros Hm Hrb Hcl. split.
  - unfold add_document_sections.
    destruct sections as [|s0 rest0] eqn:Hsec; [discriminate Hm|].
    rewrite <- Hsec in *.
    unfold try_finally, try_except, bind at 1. rewrite Hm.
    unfold bind, call, raise. rewrite Hrb, Hcl. by rewrite <- app_assoc.
  - apply merge_sections_log in Hm as (body & -> & Hbody & _).
    rewrite drop_app_length. eapply Forall_impl; [exact Hbody|].
    by intros ev Hev ->.
Qed.

(** The ids are asked for with [s['document_id']] of every section: when
    a section has no [document_id] key, which makes the loop skip it, the
    call raises [KeyError] after the batch has been committed, and rolls
    back a session that has nothing left to roll back. *)
Theorem add_document_sections_missing_key self session sections section log log1 :
  section ∈ sections ->
  section !! "document_id" = None ->
  merge_sections self session sections log = (Ok tt, log1) ->
  commit session log1 = Ok tt ->
  rollback session (log1 ++ [Session Commit]) = Ok tt ->
  close session (log1 ++ [Session Commit; Session Rollback]) = Ok tt ->
  complete section = false
  /\ add_document_sections self session sections log
     = (Raise KeyError,
        log1 ++ [Session Commit; Session Rollback; Session Close]).
Proof.
  intros Hin Hnone Hm Hco Hrb Hcl. split.
  - unfold complete, get, doc_get. rewrite Hnone. simpl.
    by rewrite andb_false_r.
  - unfold add_document_sections.
    destruct sections as [|s0 rest0] eqn:Hsec; [by inversion Hin|].
    rewrite <- Hsec in *.
    unfold try_finally, try_except, bind at 1. rewrite Hm.
    unfold bind at 1, call at 1. rewrite Hco.
    unfold bind at 1, lift.
    rewrite (document_ids_missing _ _ Hin Hnone).
    unfold bind, call, raise. rewrite Hrb.
    rewrite <- !app_assoc. simpl. rewrite Hcl. done.
Qed.

End IngestionOutcomes.

(** ** The further properties at concrete inputs *)

Lemma get_embedding_outcome_witness :
  VectorDatabase.get_embedding Fixtures.database refund_query
    "text-embedding-3-large" []
  = (match VectorDatabase.embeddings_create Demo.embedder []
             [normalized refund_query] "text-embedding-3-large"
     with
     | Ok (embedding :: _) => Ok embedding
     | Ok [] => Raise IndexError
     | Raise e => Raise e
     end,
     [] ++ [EmbeddingsCreate [normalized refund_query]
              "text-embedding-3-large"]).
Proof.
  apply (get_embedding_outcome Fixtures.database Demo.embedder);
    [reflexivity|]. intros Hb. vm_compute in Hb. discriminate Hb.
Defined.

Lemma search_blank_query_witness :
  VectorDatabase.search Fixtures.database "   " (Some 6) []
  = (match VectorDatabase.session_query Fixtures.database [] [] (Some 6)
     with
     | Ok rows => Ok (map VectorDatabase.format_result rows)
     | Raise e => Raise e
     end,
     [] ++ [StoreQuery [] (Some 6)]).
Proof.
  apply (search_blank_query Fixtures.database Demo.embedder);
    reflexivity.
Defined.

Lemma search_candidates_witness :
  exists hq embedding rows,
    VectorDatabase.session_query Fixtures.database hq embedding (Some 6)
    = Ok rows
    /\ length Demo.docs = length rows
    /\ forall i chunk distance,
        rows !! i = Some (chunk, distance) ->
        exists doc,
          Demo.docs !! i = Some doc
          /\ dom doc = candidate_keys
          /\ doc !! "id" = Some (PInt (id chunk))
          /\ doc !! "document_id" = Some (PStr (document_id chunk))
          /\ doc !! "chunk_id" = Some (PStr (chunk_id chunk))
          /\ doc !! "filename" = Some (PStr (filename chunk))
          /\ doc !! "chunk_text" = Some (PStr (chunk_text chunk))
          /\ doc !! "distance" = Some (PFloat distance)
          /\ doc !! "similarity" = Some (PFloat (1 - distance)).
Proof.
  apply (search_candidates Fixtures.database refund_query (Some 6) []
           Demo.docs Demo.retrieval_log).
  reflexivity.
Defined.

Lemma rerank_requests_witness :
  exists out,
    RagService._rerank_documents_with_openai Demo.refund_service
      refund_query Demo.docs []
    = (Ok out, [] ++ map (judge_call refund_query) Demo.docs)
    /\ length out = length Demo.docs.
Proof.
  apply (rerank_requests Demo.refund_service
           (Demo.scripted Demo.refund_script)).
  reflexivity.
Defined.

Lemma process_query_without_reranking_witness :
  select_documents Demo.refund_service Fixtures.plain_request []
  = (Ok (take (Z.to_nat 2) [Demo.doc 0; Demo.doc 1]),
     [EmbeddingsCreate [refund_query] "text-embedding-3-large";
      StoreQuery [1%Q; 0%Q; 0%Q] (Some 2)])
  /\ exists content evs,
      RagService.process_query Demo.refund_service Fixtures.plain_request []
      = (QueryResponse.make (QueryRequest.query Fixtures.plain_request)
           content (take (Z.to_nat 2) [Demo.doc 0; Demo.doc 1]),
         [EmbeddingsCreate [refund_query] "text-embedding-3-large";
          StoreQuery [1%Q; 0%Q; 0%Q] (Some 2)] ++ evs)
      /\ Forall (fun ev => is_answer_call ev = true) evs.
Proof.
  apply (process_query_without_reranking Demo.refund_service
           Fixtures.plain_request 2 []);
    [reflexivity | reflexivity | lia | reflexivity].
Defined.

Lemma process_query_retrieval_failure_witness :
  RagService.process_query Fixtures.broken_service refund_request []
  = (Raise (OtherError "OperationalError"), Fixtures.broken_log)
  /\ exists evs,
      Fixtures.broken_log = [] ++ evs
      /\ Forall (fun ev => is_chat_call ev = false) evs.
Proof.
  apply (process_query_retrieval_failure Fixtures.broken_service
           refund_request (Some 6)); reflexivity.
Defined.

Lemma process_query_empty_completion_witness :
  RagService.process_query Fixtures.silent_service refund_request []
  = (Raise ValidationError,
     Demo.scoring_log
     ++ [answer_call (QueryRequest.query refund_request)
           [Demo.doc 2; Demo.doc 1]]).
Proof.
  apply (process_query_empty_completion Fixtures.silent_service
           (Demo.scripted Fixtures.silent_script) refund_request []
           [Demo.doc 2; Demo.doc 1] Demo.scoring_log []);
    [reflexivity | reflexivity | discriminate | reflexivity].
Defined.

Lemma process_query_no_top_k_reranking_witness :
  RagService.process_query Demo.refund_service
    Fixtures.unlimited_rerank_request []
  = (Raise TypeError, []).
Proof.
  apply (process_query_no_top_k_reranking Demo.refund_service
           Fixtures.unlimited_rerank_request []); reflexivity.
Defined.

Lemma process_query_no_top_k_witness :
  select_documents Demo.refund_service Fixtures.unlimited_request []
  = (Ok Demo.docs,
     [EmbeddingsCreate [refund_query] "text-embedding-3-large";
      StoreQuery [1%Q; 0%Q; 0%Q] None])
  /\ forall resp h',
      RagService.process_query Demo.refund_service
        Fixtures.unlimited_request [] = (Ok resp, h') ->
      QueryResponse.sources resp = Demo.docs.
Proof.
  apply (process_query_no_top_k Demo.refund_service
           Fixtures.unlimited_request []); reflexivity.
Defined.

Lemma process_query_call_pattern_witness :
  exists evs,
    snd (RagService.process_query Demo.refund_service refund_request [])
    = [] ++ evs
    /\ call_pattern evs.
Proof.
  apply (process_query_call_pattern Demo.refund_service refund_request []
           (fst (RagService.process_query Demo.refund_service
                   refund_request []))).
  apply surjective_pairing.
Defined.

Lemma score_document_tolerates_prose_witness :
  RagService.score_document Fixtures.prose_client refund_query
    (Demo.doc 0) []
  = (Ok (0.9%Q, Demo.doc 0), [] ++ [judge_call refund_query (Demo.doc 0)]).
Proof.
  apply (score_document_tolerates_prose Fixtures.prose_client refund_query
           (Demo.doc 0) [] "Score: " Fixtures.prose_object " (relevant)" []
           {["relevance_score" := PFloat 0.9]} (PFloat 0.9) 0.9%Q);
    reflexivity.
Defined.

Lemma ask_blank_query_witness :
  Ask.ask Fixtures.blank_request Demo.refund_service []
  = (Ask.HTTPException 400 "Query cannot be empty", []).
Proof.
  apply (ask_blank_query Fixtures.blank_request Demo.refund_service []).
  reflexivity.
Defined.

Lemma ask_outcomes_witness :
  match fst (Ask.ask refund_request Fixtures.broken_service []) with
  | Ask.Returns response =>
      RagService.process_query Fixtures.broken_service refund_request []
      = (Ok response,
         snd (Ask.ask refund_request Fixtures.broken_service []))
  | Ask.HTTPException status_code detail =>
      (status_code = 400 /\ detail = "Query cannot be empty"
       /\ snd (Ask.ask refund_request Fixtures.broken_service []) = []
       /\ py_strip (QueryRequest.query refund_request) = "")
      \/ (status_code = 500 /\ detail = "Internal server error"
          /\ exists e,
              RagService.process_query Fixtures.broken_service
                refund_request []
              = (Raise e,
                 snd (Ask.ask refund_request Fixtures.broken_service [])))
  end.
Proof.
  apply (ask_outcomes refund_request Fixtures.broken_service []).
  apply surjective_pairing.
Defined.

Lemma ask_degraded_answer_witness :
  Ask.ask refund_request Demo.failing_service []
  = (Ask.Returns
       {| QueryResponse.query := QueryRequest.query refund_request;
          QueryResponse.response := RagService.generation_error_text;
          QueryResponse.sources := [Demo.doc 2; Demo.doc 1] |},
     Demo.scoring_log
     ++ [answer_call (QueryRequest.query refund_request)
           [Demo.doc 2; Demo.doc 1]]).
Proof.
  apply (ask_degraded_answer refund_request Demo.failing_service
           (Demo.scripted Demo.judge_script) [] [Demo.doc 2; Demo.doc 1]
           Demo.scoring_log (OtherError "APIConnectionError"));
    [discriminate | reflexivity | reflexivity | discriminate | reflexivity].
Defined.

Lemma ask_retrieval_failure_witness :
  Ask.ask refund_request Fixtures.broken_service []
  = (Ask.HTTPException 500 "Internal server error", Fixtures.broken_log)
  /\ Forall (fun ev => is_chat_call ev = false)
       (drop (length (@nil event)) Fixtures.broken_log).
Proof.
  apply (ask_retrieval_failure refund_request Fixtures.broken_service
           (Some 6) [] (OtherError "OperationalError"));
    [discriminate | reflexivity | reflexivity].
Defined.

Lemma title_falls_back_witness :
  Titles.generate_title "gpt-5-nano" true
    (Some (TitleFixtures.replying (Raise (OtherError "APIConnectionError"))))
    TitleFixtures.long_query
  = Titles.shortened TitleFixtures.long_query
  /\ (Titles.py_len TitleFixtures.long_query <= 50 ->
      Titles.shortened TitleFixtures.long_query = TitleFixtures.long_query)
  /\ (50 < Titles.py_len TitleFixtures.long_query ->
      exists prefix rest,
        TitleFixtures.long_query = prefix +:+ rest
        /\ Titles.py_len prefix = 50
        /\ Titles.shortened TitleFixtures.long_query = prefix +:+ "...").
Proof.
  apply (title_falls_back "gpt-5-nano" true
           (Some (TitleFixtures.replying
                    (Raise (OtherError "APIConnectionError"))))).
  right. exact I.
Defined.

Lemma title_of_blank_reply_witness :
  Titles.generate_title "gpt-5-nano" true
    (Some (TitleFixtures.replying (Ok [Some "  "])))
    TitleFixtures.long_query
  = "".
Proof.
  apply (title_of_blank_reply "gpt-5-nano"
           (TitleFixtures.replying (Ok [Some "  "]))
           TitleFixtures.long_query "  " []); reflexivity.
Defined.

Lemma add_document_sections_closes_witness :
  exists body,
    Forall (fun ev => Ingestion.ends_session ev = false) body
    /\ (snd (Ingestion.add_document_sections Fixtures.database
               IngestionFixtures.session
               [IngestionFixtures.section "Refunds take 30 days."] [])
        = [] ++ body ++ [Ingestion.Session Ingestion.Close]
        \/ (snd (Ingestion.add_document_sections Fixtures.database
                   IngestionFixtures.session
                   [IngestionFixtures.section "Refunds take 30 days."] [])
            = [] ++ body
              ++ [Ingestion.Session Ingestion.Rollback;
                  Ingestion.Session Ingestion.Close]
            /\ exists e,
                fst (Ingestion.add_document_sections Fixtures.database
                       IngestionFixtures.session
                       [IngestionFixtures.section "Refunds take 30 days."]
                       [])
                = Raise e)).
Proof.
  apply (add_document_sections_closes Fixtures.database
           IngestionFixtures.session
           [IngestionFixtures.section "Refunds take 30 days."] []);
    [discriminate | apply surjective_pairing].
Defined.

Lemma add_document_sections_returns_witness :
  exists body vs,
    [IngestionFixtures.merge_of "  " [];
     IngestionFixtures.embedding_of "Refunds take 30 days.";
     IngestionFixtures.merge_of "Refunds take 30 days." [1%Q; 0%Q; 0%Q];
     Ingestion.Session Ingestion.Commit;
     Ingestion.Session
       (Ingestion.QueryIds [PStr "policy"; PStr "policy"; PStr "policy"]);
     Ingestion.Session Ingestion.Close]
    = [] ++ body
      ++ [Ingestion.Session Ingestion.Commit;
          Ingestion.Session (Ingestion.QueryIds vs);
          Ingestion.Session Ingestion.Close]
    /\ Forall loop_event body
    /\ Forall2 Ingestion.chunk_of
         (List.filter Ingestion.complete
            [IngestionFixtures.section "  ";
             IngestionFixtures.section "";
             IngestionFixtures.section "Refunds take 30 days."])
         (omap Ingestion.merged body)
    /\ Forall2 (fun section v => section !! "document_id" = Some v)
         [IngestionFixtures.section "  ";
          IngestionFixtures.section "";
          IngestionFixtures.section "Refunds take 30 days."] vs
    /\ Ingestion.query_ids IngestionFixtures.session
         ([] ++ body ++ [Ingestion.Session Ingestion.Commit]) vs
       = Ok [1; 2].
Proof.
  apply (add_document_sections_returns Fixtures.database
           IngestionFixtures.session
           [IngestionFixtures.section "  ";
            IngestionFixtures.section "";
            IngestionFixtures.section "Refunds take 30 days."] []
           [1; 2]);
    [discriminate | reflexivity].
Defined.

Lemma add_document_sections_failed_batch_witness :
  Ingestion.add_document_sections IngestionFixtures.failing_database
    IngestionFixtures.session
    [IngestionFixtures.section "Refunds take 30 days."] []
  = (Raise (OtherError "RateLimitError"),
     [IngestionFixtures.embedding_of "Refunds take 30 days."]
     ++ [Ingestion.Session Ingestion.Rollback;
         Ingestion.Session Ingestion.Close])
  /\ Forall (fun ev => ev <> Ingestion.Session Ingestion.Commit)
       (drop (length (@nil Ingestion.ingest_event))
          [IngestionFixtures.embedding_of "Refunds take 30 days."]).
Proof.
  apply (add_document_sections_failed_batch
           IngestionFixtures.failing_database IngestionFixtures.session
           [IngestionFixtures.section "Refunds take 30 days."] []);
    reflexivity.
Defined.

Lemma add_document_sections_missing_key_witness :
  Ingestion.complete IngestionFixtures.keyless_section = false
  /\ Ingestion.add_document_sections Fixtures.database
       IngestionFixtures.session
       [IngestionFixtures.section "Refunds take 30 days.";
        IngestionFixtures.keyless_section] []
     = (Raise KeyError,
        [IngestionFixtures.embedding_of "Refunds take 30 days.";
         IngestionFixtures.merge_of "Refunds take 30 days."
           [1%Q; 0%Q; 0%Q]]
        ++ [Ingestion.Session Ingestion.Commit;
            Ingestion.Session Ingestion.Rollback;
            Ingestion.Session Ingestion.Close]).
Proof.
  apply (add_document_sections_missing_key Fixtures.database
           IngestionFixtures.session
           [IngestionFixtures.section "Refunds take 30 days.";
            IngestionFixtures.keyless_section]
           IngestionFixtures.keyless_section []);
    [set_solver | reflexivity | reflexivity | reflexivity | reflexivity
    | reflexivity].
Defined.

(** ** The text chunker *)

Section Chunker.
Import TextChunker.

Lemma file_chunks_lookup split_text md_file i c :
  file_chunks split_text md_file !! i = Some c ->
  exists content split_texts chunk_text,
    read md_file = Ok content
    /\ split_text content = Ok split_texts
    /\ split_texts !! i = Some chunk_text
    /\ c = chunk (stem md_file) (relative_path md_file) i chunk_text.
Proof.
  unfold file_chunks. destruct (read md_file) as [content|]; [|done].
  destruct (String.eqb _ _); [done|].
  destruct (split_text content) as [split_texts|] eqn:Hs; [|done].
  rewrite list_lookup_imap.
  destruct (split_texts !! i) as [chunk_text|] eqn:E; [|done].
  intros [= <-]. by exists content, split_texts, chunk_text.
Qed.

(** The chunks of one file are numbered from 0 in the order of the
    splitter: the chunk at position [i] has the id
    [<stem>_chunk_<i>], the stem as document id, the relative path as
    file name and the i-th text; no two chunks of the file share an id. *)
Theorem file_chunks_ids split_text md_file i c :
  file_chunks split_text md_file !! i = Some c ->
  c !! "document_id" = Some (PStr (stem md_file))
  /\ c !! "chunk_id"
     = Some (PStr (stem md_file +:+ "_chunk_" +:+ pretty i))
  /\ c !! "filename" = Some (PStr (relative_path md_file))
  /\ (exists content split_texts chunk_text,
        read md_file = Ok content
        /\ split_text content = Ok split_texts
        /\ split_texts !! i = Some chunk_text
        /\ c !! "chunk_text" = Some (PStr chunk_text))
  /\ forall j d,
      file_chunks split_text md_file !! j = Some d ->
      c !! "chunk_id" = d !! "chunk_id" -> i = j.
Proof.
  intros Hc.
  destruct (file_chunks_lookup _ _ _ _ Hc)
    as (content & split_texts & chunk_text & Hr & Hs & Hi & ->).
  repeat split; try done.
  - by exists content, split_texts, chunk_text.
  - intros j d Hd.
    destruct (file_chunks_lookup _ _ _ _ Hd) as (? & ? & ? & _ & _ & _ & ->).
    unfold chunk. rewrite !lookup_insert_ne, !lookup_insert_eq by done.
    intros [= Heq]. apply (inj (String.append _)) in Heq.
    apply (inj (String.append _)) in Heq. by apply (inj pretty) in Heq.
Qed.

(** The ids do not tell apart two files with the same stem: their
    chunks at the same position have the same document id and the same
    chunk id, whatever their paths. *)
Theorem file_chunks_same_stem split_text f g i c d :
  stem f = stem g ->
  file_chunks split_text f !! i = Some c ->
  file_chunks split_text g !! i = Some d ->
  c !! "document_id" = d !! "document_id"
  /\ c !! "chunk_id" = d !! "chunk_id".
Proof.
  intros Hst Hc Hd.
  destruct (file_chunks_lookup _ _ _ _ Hc) as (? & ? & ? & _ & _ & _ & ->).
  destruct (file_chunks_lookup _ _ _ _ Hd) as (? & ? & ? & _ & _ & _ & ->).
  unfold chunk. rewrite Hst. by split.
Qed.

Lemma file_chunks_skipped split_text md_file :
  skipped split_text md_file -> file_chunks split_text md_file = [].
Proof.
  unfold skipped, file_chunks. destruct (read md_file) as [content|]; [|done].
  intros [Hb | [e He]].
  - by rewrite Hb.
  - rewrite He. by destruct (String.eqb _ _).
Qed.

(** The result is the chunks of the files one after the other, and a
    file that cannot be read, is blank or cannot be split does not stop
    the run: the result is the same as without this file. *)
Theorem chunk_markdown_files_skips env split_text before md_file after size overlap :
  text_splitter env (or_setting size (settings_chunk_size env))
    (or_setting overlap (settings_chunk_overlap env)) = Ok split_text ->
  exists_ env = true ->
  md_files env = before ++ md_file :: after ->
  chunk_markdown_files env size overlap
  = Ok (concat (map (file_chunks split_text) before)
        ++ file_chunks split_text md_file
        ++ concat (map (file_chunks split_text) after))
  /\ (skipped split_text md_file ->
      chunk_markdown_files env size overlap
      = Ok (concat (map (file_chunks split_text) (before ++ after)))).
Proof.
  intros Hsp Hex Hfiles. unfold chunk_markdown_files.
  rewrite Hsp, Hex, Hfiles. simpl.
  rewrite !map_app, !concat_app. simpl. split; [done|].
  intros Hsk. by rewrite (file_chunks_skipped _ _ Hsk).
Qed.

(** The chunks fit the ingestion: a chunk of a file with a stem and a
    path that are not empty, whose text is not empty, has the
    [document_id] key and passes the completeness check of
    [add_document_sections]. *)
Theorem file_chunks_complete split_text md_file i c :
  file_chunks split_text md_file !! i = Some c ->
  stem md_file <> "" ->
  relative_path md_file <> "" ->
  c !! "chunk_text" <> Some (PStr "") ->
  Ingestion.complete c = true
  /\ Ingestion.document_ids [c] = Ok [PStr (stem md_file)].
Proof.
  intros Hc Hst Hrel Htext.
  destruct (file_chunks_lookup _ _ _ _ Hc)
    as (content & split_texts & chunk_text & _ & _ & _ & ->).
  split; [|done].
  set (c := chunk (stem md_file) (relative_path md_file) i chunk_text) in *.
  assert (c !! "document_id" = Some (PStr (stem md_file))) as Hd by done.
  assert (c !! "chunk_id"
          = Some (PStr (stem md_file +:+ "_chunk_" +:+ pretty i))) as Hi
    by done.
  assert (c !! "filename" = Some (PStr (relative_path md_file))) as Hf
    by done.
  assert (c !! "chunk_text" = Some (PStr chunk_text)) as Ht by done.
  assert (forall s, s <> "" -> negb (String.eqb s "") = true) as Hnonempty.
  { intros s Hs. destruct (String.eqb s "") eqn:E; [|done].
    by apply String.eqb_eq in E. }
  unfold Ingestion.complete, Ingestion.get, doc_get.
  rewrite Hd, Hi, Hf, Ht. simpl.
  rewrite (Hnonempty chunk_text), (Hnonempty (stem md_file)),
    (Hnonempty (relative_path md_file)) by congruence.
  rewrite Hnonempty; [done|]. by destruct (stem md_file).
Qed.

End Chunker.

Lemma file_chunks_ids_witness :
  TextChunker.chunk "policy" "policy.md" 1 "Refunds take 30 days."
    !! "document_id"
  = Some (PStr (TextChunker.stem ChunkerFixtures.policy))
  /\ TextChunker.chunk "policy" "policy.md" 1 "Refunds take 30 days."
       !! "chunk_id"
     = Some (PStr (TextChunker.stem ChunkerFixtures.policy
                   +:+ "_chunk_" +:+ pretty 1%nat))
  /\ TextChunker.chunk "policy" "policy.md" 1 "Refunds take 30 days."
       !! "filename"
     = Some (PStr (TextChunker.relative_path ChunkerFixtures.policy))
  /\ (exists content split_texts chunk_text,
        TextChunker.read ChunkerFixtures.policy = Ok content
        /\ ChunkerFixtures.halves content = Ok split_texts
        /\ split_texts !! 1%nat = Some chunk_text
        /\ TextChunker.chunk "policy" "policy.md" 1 "Refunds take 30 days."
             !! "chunk_text"
           = Some (PStr chunk_text))
  /\ forall j d,
      TextChunker.file_chunks ChunkerFixtures.halves ChunkerFixtures.policy
        !! j = Some d ->
      TextChunker.chunk "policy" "policy.md" 1 "Refunds take 30 days."
        !! "chunk_id"
      = d !! "chunk_id" ->
      1%nat = j.
Proof.
  apply (file_chunks_ids ChunkerFixtures.halves ChunkerFixtures.policy 1).
  reflexivity.
Defined.

Lemma file_chunks_same_stem_witness :
  TextChunker.chunk "policy" "policy.md" 0 "Refunds take 30 days."
    !! "document_id"
  = TextChunker.chunk "policy" "old/policy.md" 0 "Refunds take 14 days."
      !! "document_id"
  /\ TextChunker.chunk "policy" "policy.md" 0 "Refunds take 30 days."
       !! "chunk_id"
     = TextChunker.chunk "policy" "old/policy.md" 0 "Refunds take 14 days."
         !! "chunk_id".
Proof.
  apply (file_chunks_same_stem ChunkerFixtures.halves ChunkerFixtures.policy
           ChunkerFixtures.old_policy 0); reflexivity.
Defined.

Lemma chunk_markdown_files_skips_witness :
  TextChunker.chunk_markdown_files ChunkerFixtures.env (Some 0) None
  = Ok (concat (map (TextChunker.file_chunks ChunkerFixtures.halves)
                  [ChunkerFixtures.policy])
        ++ TextChunker.file_chunks ChunkerFixtures.halves
             ChunkerFixtures.unreadable
        ++ concat (map (TextChunker.file_chunks ChunkerFixtures.halves)
                     [ChunkerFixtures.old_policy]))
  /\ (TextChunker.skipped ChunkerFixtures.halves ChunkerFixtures.unreadable ->
      TextChunker.chunk_markdown_files ChunkerFixtures.env (Some 0) None
      = Ok (concat (map (TextChunker.file_chunks ChunkerFixtures.halves)
                      ([ChunkerFixtures.policy]
                       ++ [ChunkerFixtures.old_policy])))).
Proof.
  apply (chunk_markdown_files_skips ChunkerFixtures.env
           ChunkerFixtures.halves [ChunkerFixtures.policy]
           ChunkerFixtures.unreadable [ChunkerFixtures.old_policy]
           (Some 0) None); reflexivity.
Defined.

Lemma file_chunks_complete_witness :
  Ingestion.complete
    (TextChunker.chunk "policy" "policy.md" 1 "Refunds take 30 days.")
  = true
  /\ Ingestion.document_ids
       [TextChunker.chunk "policy" "policy.md" 1 "Refunds take 30 days."]
     = Ok [PStr (TextChunker.stem ChunkerFixtures.policy)].
Proof.
  apply (file_chunks_complete ChunkerFixtures.halves ChunkerFixtures.policy
           1);
    [reflexivity | discriminate | discriminate | discriminate].
Defined.
